(** * E-commerce sales dashboard: filtering and aggregation

    A shallow embedding of the data functions of [dashboard/app.py]
    ([filter_data], [create_daily_orders], [create_monthly_orders],
    [create_best_worst_categories], [create_rfm_analysis],
    [create_geoanalysis] and the two scalars of [display_order_stats]),
    together with the pandas operations they are written with.

    A DataFrame is the list of its rows, in row order.  A [datetime64[ns]]
    value is the integer number of nanoseconds since 1970-01-01T00:00, a
    [datetime.date] is its day number counted from 1970-01-01.  Every row
    carries a parsed purchase timestamp and non-null key columns (missing
    values, NaT and NaN, are outside this model), and [payment_value] and
    [qty_order] are exact integers (centavos and units): float rounding is
    not modelled. *)

From Stdlib Require Import ZArith Lia.
From stdpp Require Import base tactics decidable option numbers list
  list_numbers sorting strings.

Local Open Scope Z_scope.

(** ** Timestamps and dates *)

Definition ns_per_day : Z := 86400000000000.

(** [Series.dt.date]: the calendar date of a timestamp. *)
Definition dt_date (ts : Z) : Z := ts / ns_per_day.

(** Midnight of a day, as a timestamp. *)
Definition day_start (d : Z) : Z := d * ns_per_day.

(** [Timedelta.days]: whole days of a duration given in nanoseconds. *)
Definition timedelta_days (delta : Z) : Z := delta / ns_per_day.

(** ** Order records *)

Record Row := mkRow {
  order_id : string;
  order_purchase_timestamp : Z;
  order_status : string;
  customer_id : string;
  customer_state : string;
  product_category_name_english : string;
  qty_order : Z;
  payment_value : Z
}.

Global Instance Row_eq_dec : EqDecision Row.
Proof. solve_decision. Defined.

Abbreviation DataFrame := (list Row).

(** ** Series reductions *)

(** [Series.sum()]: the empty sum is 0. *)
Definition series_sum (s : list Z) : Z := foldr Z.add 0 s.

(** [Series.max()] and [Series.min()] of a datetime column: [None] is NaT,
    the result on an empty column. *)
Definition series_max (s : list Z) : option Z :=
  match s with
  | [] => None
  | x :: s' => Some (foldr Z.max x s')
  end.

Definition series_min (s : list Z) : option Z :=
  match s with
  | [] => None
  | x :: s' => Some (foldr Z.min x s')
  end.

(** First-seen distinct values, as [Series.unique()] and the uniques of
    [pd.factorize] list them. *)
Fixpoint unique (s : list string) : list string :=
  match s with
  | [] => []
  | x :: s' => x :: filter (λ y, y ≠ x) (unique s')
  end.

(** [Series.nunique()]: the number of distinct values. *)
Definition nunique (s : list string) : nat := length (unique s).

(** [Series.count()]: the number of non-null values; every value of the
    model is non-null. *)
Definition series_count (s : list string) : nat := length s.

(** ** The filter engine *)

(** [filter_data(df, start_date, end_date, selected_status)]: a boolean
    mask on the purchase date, then one on the status unless the
    selection is the sentinel ["ALL"]. *)
Definition filter_data (df : DataFrame) (start_date end_date : Z)
    (selected_status : string) : DataFrame :=
  let filtered_df :=
    filter (λ r, start_date ≤ dt_date (order_purchase_timestamp r)
               ∧ dt_date (order_purchase_timestamp r) ≤ end_date) df in
  if decide (selected_status ≠ "ALL")
  then filter (λ r, order_status r = selected_status) filtered_df
  else filtered_df.

(** ** The proleptic Gregorian calendar

    pandas reads the year and month of a timestamp off its day number;
    the conversion is written here in its usual closed form, with the
    year counted from 1 March inside 400-year eras of 146097 days. *)

(** Day number of the date [y]-[m]-[d]. *)
Definition days_from_civil (y m d : Z) : Z :=
  let y' := if bool_decide (m ≤ 2) then y - 1 else y in
  let era := y' / 400 in
  let yoe := y' - era * 400 in
  let mp := if bool_decide (2 < m) then m - 3 else m + 9 in
  let doy := (153 * mp + 2) / 5 + d - 1 in
  let doe := yoe * 365 + yoe / 4 - yoe / 100 + doy in
  era * 146097 + doe - 719468.

(** Year, month and day of a day number. *)
Definition civil_from_days (z : Z) : Z * Z * Z :=
  let z' := z + 719468 in
  let era := z' / 146097 in
  let doe := z' - era * 146097 in
  let yoe := (doe - doe / 1460 + doe / 36524 - doe / 146096) / 365 in
  let doy := doe - (365 * yoe + yoe / 4 - yoe / 100) in
  let mp := (5 * doy + 2) / 153 in
  let d := doy - (153 * mp + 2) / 5 + 1 in
  let m := if bool_decide (mp < 10) then mp + 3 else mp - 9 in
  let y := yoe + era * 400 in
  (if bool_decide (m ≤ 2) then y + 1 else y, m, d).

(** Calendar months are numbered consecutively: month [m] of year [y] is
    month [12 * y + (m - 1)]. *)
Definition month_index (d : Z) : Z :=
  let '(y, m, _) := civil_from_days d in 12 * y + (m - 1).

(** Day number of the first day of a month. *)
Definition month_start (k : Z) : Z :=
  days_from_civil (k / 12) (k `mod` 12 + 1) 1.

(** Closed forms of the conversion, counted from March: the first day of
    year [y] of an era, the year of a day of an era, the month of a day of
    a year, the first day of a month of a year, and the first day of the
    [j]-th month after March of year 0. *)
Definition year_start (y : Z) : Z := 365 * y + y / 4 - y / 100.
Definition yoe_of (doe : Z) : Z :=
  (doe - doe / 1460 + doe / 36524 - doe / 146096) / 365.
Definition mp_of (doy : Z) : Z := (5 * doy + 2) / 153.
Definition mp_start (mp : Z) : Z := (153 * mp + 2) / 5.
Definition march_start (j : Z) : Z :=
  let y := j / 12 in
  365 * y + y / 4 - y / 100 + y / 400 + (153 * (j `mod` 12) + 2) / 5 - 719468.

(** A timestamp truncated to its calendar day and to its calendar month:
    midnight of the day, and midnight of the first day of the month. *)
Definition floor_day (ts : Z) : Z := day_start (dt_date ts).
Definition floor_month (ts : Z) : Z :=
  day_start (month_start (month_index (dt_date ts))).

(** ** Resampling on the purchase timestamp *)

(** A row of [resample(...).agg(...).reset_index()]: the bucket's
    timestamp, the [nunique] of [order_id] and the [sum] of
    [payment_value]. *)
Record Bucket := mkBucket {
  bucket_timestamp : Z;
  bucket_order_id : nat;
  bucket_payment_value : Z
}.

(** Rule ['D']: a bin per calendar day, labelled by the day's midnight. *)
Definition day_bin (ts : Z) : Z := dt_date ts.
Definition day_label (k : Z) : Z := day_start k.

(** Rule ['M'] (month end): a bin per calendar month, closed and
    labelled on the right, the label being midnight of the month's last
    day. *)
Definition month_bin (ts : Z) : Z := month_index (dt_date ts).
Definition month_label (k : Z) : Z := day_start (month_start (k + 1) - 1).

(** The rows of [df] in bin [k]. *)
Definition bin_rows (bin : Z → Z) (k : Z) (df : DataFrame) : DataFrame :=
  filter (λ r, bin (order_purchase_timestamp r) = k) df.

(** The bucket of bin [k]: its label, the number of distinct order
    identifiers of its rows and the sum of their payment values. *)
Definition bucket_of (bin label : Z → Z) (df : DataFrame) (k : Z) : Bucket :=
  let grp := bin_rows bin k df in
  mkBucket (label k) (nunique (order_id <$> grp))
           (series_sum (payment_value <$> grp)).

(** [df.resample(rule, on='order_purchase_timestamp').agg({'order_id':
    'nunique', 'payment_value': 'sum'}).reset_index()]: one bucket for
    every bin from the bin of the earliest timestamp to the bin of the
    latest one, empty bins included, in chronological order; an empty
    frame has no bins. *)
Definition resample (bin label : Z → Z) (df : DataFrame) : list Bucket :=
  let ts := order_purchase_timestamp <$> df in
  match series_min ts, series_max ts with
  | Some first, Some last =>
      bucket_of bin label df <$> seqZ (bin first) (bin last - bin first + 1)
  | _, _ => []
  end.

Definition create_daily_orders (df : DataFrame) : list Bucket :=
  resample day_bin day_label df.

Definition create_monthly_orders (df : DataFrame) : list Bucket :=
  resample month_bin month_label df.

(** ** Grouping by a key column *)

(** The group keys of [df.groupby(col)]: the distinct values of the
    column, sorted. *)
Definition group_keys (col : Row → string) (df : DataFrame) : list string :=
  merge_sort String.le (unique (col <$> df)).

Definition get_group (col : Row → string) (k : string) (df : DataFrame)
    : DataFrame :=
  filter (λ r, col r = k) df.

(** [df.groupby('product_category_name_english')['qty_order'].sum()
    .reset_index()]. *)
Definition create_best_worst_categories (df : DataFrame)
    : list (string * Z) :=
  (λ k, (k, series_sum
              (qty_order <$> get_group product_category_name_english k df)))
    <$> group_keys product_category_name_english df.

(** [pd.factorize]: the codes of the values, which number the distinct
    values from 0 in order of first appearance, and those distinct
    values. *)
Fixpoint index_of (x : string) (l : list string) : nat :=
  match l with
  | [] => 0%nat
  | y :: l' => if decide (x = y) then 0%nat else S (index_of x l')
  end.

Definition factorize (s : list string) : list nat * list string :=
  let uniques := unique s in
  ((λ x, index_of x uniques) <$> s, uniques).

(** A row of the RFM table.  [recency] is [None] where pandas has NaN
    (the difference with NaT). *)
Record RfmRow := mkRfmRow {
  rfm_customer_id : string;
  recency : option Z;
  frequency : nat;
  monetary : Z;
  numeric_id : nat
}.

(** [create_rfm_analysis(df)]. *)
Definition create_rfm_analysis (df : DataFrame) : list RfmRow :=
  let now := series_max (order_purchase_timestamp <$> df) in
  let rfm_df :=
    (λ c, let x := get_group customer_id c df in
          (c,
           (n ← now; m ← series_max (order_purchase_timestamp <$> x);
            Some (timedelta_days (n - m))),
           series_count (order_id <$> x),
           series_sum (payment_value <$> x)))
      <$> group_keys customer_id df in
  let codes := (factorize ((λ t, t.1.1.1) <$> rfm_df)).1 in
  zip_with (λ t code, mkRfmRow t.1.1.1 t.1.1.2 t.1.2 t.2 (code + 1)%nat)
           rfm_df codes.

(** Order of [sort_values(ascending=True)] on a Series of sums. *)
Definition by_value : relation (string * Z) := λ a b, a.2 ≤ b.2.

Global Instance by_value_dec : RelDecision by_value.
Proof. intros a b. unfold by_value. apply _. Defined.

(** [df.groupby('customer_state')['payment_value'].sum()
    .sort_values(ascending=True)]. *)
Definition create_geoanalysis (df : DataFrame) : list (string * Z) :=
  merge_sort by_value
    ((λ k, (k, series_sum (payment_value <$> get_group customer_state k df)))
       <$> group_keys customer_state df).

(** The two scalars of [display_order_stats]. *)
Definition total_orders (df : DataFrame) : nat := nunique (order_id <$> df).

(** ** The sidebar *)

(** [create_sidebar]: the bounds, and the default value, of the date
    range picker are the dates of the earliest and of the latest
    purchase; [None] on an empty table, whose [min()] is NaT. *)
Definition sidebar_date_range (df : DataFrame) : option (Z * Z) :=
  min_ts ← series_min (order_purchase_timestamp <$> df);
  max_ts ← series_max (order_purchase_timestamp <$> df);
  Some (dt_date min_ts, dt_date max_ts).

(** [create_sidebar]: the options of the status radio,
    [['ALL'] + list(df['order_status'].unique())]. *)
Definition sidebar_order_status (df : DataFrame) : list string :=
  "ALL" :: unique (order_status <$> df).

(** ** The charts *)

(** [Series.value_counts()]: the number of rows of every distinct value,
    the most frequent first (the order among equal counts is not relied
    upon). *)
Definition by_count_desc : relation (string * nat) :=
  λ a b, (b.2 ≤ a.2)%nat.

Global Instance by_count_desc_dec : RelDecision by_count_desc.
Proof. intros a b. unfold by_count_desc. apply _. Defined.

Definition value_counts (s : list string) : list (string * nat) :=
  merge_sort by_count_desc
    ((λ v, (v, length (filter (λ x, x = v) s))) <$> unique s).

(** [display_order_status_viz]: [df['order_status'].value_counts()]. *)
Definition order_count (df : DataFrame) : list (string * nat) :=
  value_counts (order_status <$> df).

(** Order of [sort_values(by='qty_order', ascending=False)]. *)
Definition by_value_desc : relation (string * Z) := λ a b, b.2 ≤ a.2.

Global Instance by_value_desc_dec : RelDecision by_value_desc.
Proof. intros a b. unfold by_value_desc. apply _. Defined.

(** [display_best_worst_categories]: the two tables it plots,
    [category_summary.sort_values(by='qty_order', ascending=False)
    .head(5)] and the same with [ascending=True]. *)
Definition best_selling_categories (df : DataFrame) : list (string * Z) :=
  take 5 (merge_sort by_value_desc (create_best_worst_categories df)).

Definition worst_selling_categories (df : DataFrame) : list (string * Z) :=
  take 5 (merge_sort by_value (create_best_worst_categories df)).

(** Ascending order of a column that may hold NaN: NaN comes last. *)
Definition nan_last_le (a b : option Z) : Prop :=
  match a, b with
  | Some x, Some y => x ≤ y
  | _, None => True
  | None, Some _ => False
  end.

Global Instance nan_last_le_dec : RelDecision nan_last_le.
Proof. intros [x|] [y|]; simpl; apply _. Defined.

Definition by_recency : relation RfmRow :=
  λ a b, nan_last_le (recency a) (recency b).
Definition by_frequency_desc : relation RfmRow :=
  λ a b, (frequency b ≤ frequency a)%nat.
Definition by_monetary_desc : relation RfmRow :=
  λ a b, monetary b ≤ monetary a.

Global Instance by_recency_dec : RelDecision by_recency.
Proof. intros a b. unfold by_recency. apply _. Defined.
Global Instance by_frequency_desc_dec : RelDecision by_frequency_desc.
Proof. intros a b. unfold by_frequency_desc. apply _. Defined.
Global Instance by_monetary_desc_dec : RelDecision by_monetary_desc.
Proof. intros a b. unfold by_monetary_desc. apply _. Defined.

(** [display_rfm_analysis]: the three tables it plots, the five rows of
    [create_rfm_analysis(df)] with the smallest recency, with the largest
    frequency and with the largest monetary value. *)
Definition rfm_top_recency (df : DataFrame) : list RfmRow :=
  take 5 (merge_sort by_recency (create_rfm_analysis df)).
Definition rfm_top_frequency (df : DataFrame) : list RfmRow :=
  take 5 (merge_sort by_frequency_desc (create_rfm_analysis df)).
Definition rfm_top_monetary (df : DataFrame) : list RfmRow :=
  take 5 (merge_sort by_monetary_desc (create_rfm_analysis df)).

(** ** Vocabulary of the properties *)

(** The rows of a view bought on day [d], and in month [k]. *)
Definition rows_on_day (d : Z) (df : DataFrame) : DataFrame :=
  filter (λ r, dt_date (order_purchase_timestamp r) = d) df.
Definition rows_in_month (k : Z) (df : DataFrame) : DataFrame :=
  filter (λ r, month_index (dt_date (order_purchase_timestamp r)) = k) df.

(** The rows of a view that belong to customer [c]. *)
Definition rows_of_customer (c : string) (df : DataFrame) : DataFrame :=
  filter (λ r, customer_id r = c) df.

(** [n] is the number of distinct values of a column: the length of a
    duplicate-free enumeration of its values. *)
Definition distinct_count (s : list string) (n : nat) : Prop :=
  ∃ ids, NoDup ids ∧ (∀ x, x ∈ ids ↔ x ∈ s) ∧ n = length ids.

(** The row that [create_rfm_analysis] builds for the customer [c] at
    position [i] of the grouped table. *)
Definition rfm_row (df : DataFrame) (i : nat) (c : string) : RfmRow :=
  let x := get_group customer_id c df in
  mkRfmRow c
    (n ← series_max (order_purchase_timestamp <$> df);
     m ← series_max (order_purchase_timestamp <$> x);
     Some (timedelta_days (n - m)))
    (series_count (order_id <$> x))
    (series_sum (payment_value <$> x))
    (i + 1).

(** ** Sample views *)

Definition ns_per_hour : Z := 3600000000000.

(** The timestamp of [hh]:00 on the date [y]-[m]-[d]. *)
Definition timestamp_of (y m d hh : Z) : Z :=
  day_start (days_from_civil y m d) + hh * ns_per_hour.

(** Two item rows of one order, and two single-row orders. *)
Definition sample_view : DataFrame :=
  [ mkRow "o1" (timestamp_of 2017 1 15 10) "delivered" "cb" "SP" "toys" 1 1000;
    mkRow "o1" (timestamp_of 2017 1 15 10) "delivered" "cb" "SP" "toys" 2 500;
    mkRow "o2" (timestamp_of 2017 1 31 23) "shipped" "ca" "RJ" "books" 1 700;
    mkRow "o3" (timestamp_of 2017 3 5 0) "delivered" "cb" "SP" "toys" 1 100 ].

(** One order placed in the middle of a month. *)
Definition mid_january : DataFrame :=
  [ mkRow "o1" (timestamp_of 2017 1 15 12) "delivered" "c1" "SP" "toys" 1 1000 ].

(** Two customers whose identifiers appear in descending order. *)
Definition two_customers : DataFrame :=
  [ mkRow "o1" (timestamp_of 2017 1 15 12) "delivered" "b" "SP" "toys" 1 1000;
    mkRow "o2" (timestamp_of 2017 1 16 12) "delivered" "a" "RJ" "toys" 1 2000 ].

(** A table that uses the sentinel as a status value. *)
Definition sentinel_status : DataFrame :=
  [ mkRow "o1" (timestamp_of 2017 1 15 12) "ALL" "a" "SP" "toys" 1 1000;
    mkRow "o2" (timestamp_of 2017 1 16 12) "shipped" "b" "RJ" "toys" 1 2000 ].

(** * Properties *)

(** ** Series reductions *)

Section reductions.
Implicit Types (s : list Z) (l : list string).




Lemma fmap_ext_in {A B} (f g : A → B) (ks : list A) :
  (∀ k, k ∈ ks → f k = g k) → f <$> ks = g <$> ks.
Proof. intros H. by apply Forall_fmap_ext_1, Forall_forall. Qed.


Lemma foldr_max_spec a s :
  (foldr Z.max a s = a ∨ foldr Z.max a s ∈ s)
  ∧ a ≤ foldr Z.max a s ∧ ∀ x, x ∈ s → x ≤ foldr Z.max a s.
Proof.
  induction s as [|b s (Hin & Ha & Hs)]; simpl.
  - split; [by left|]. split; [lia|]. intros x Hx. by inversion Hx.
  - split; [|split; [lia|]].
    + destruct (Z.max_spec b (foldr Z.max a s)) as [[_ ->]|[_ ->]].
      * destruct Hin as [?|?]; [by left|right; by right].
      * right; left.
    + intros x [->|Hx]%elem_of_cons; [lia|]. specialize (Hs x Hx). lia.
Qed.

Lemma foldr_min_spec a s :
  (foldr Z.min a s = a ∨ foldr Z.min a s ∈ s)
  ∧ foldr Z.min a s ≤ a ∧ ∀ x, x ∈ s → foldr Z.min a s ≤ x.
Proof.
  induction s as [|b s (Hin & Ha & Hs)]; simpl.
  - split; [by left|]. split; [lia|]. intros x Hx. by inversion Hx.
  - split; [|split; [lia|]].
    + destruct (Z.min_spec b (foldr Z.min a s)) as [[_ ->]|[_ ->]].
      * right; left.
      * destruct Hin as [?|?]; [by left|right; by right].
    + intros x [->|Hx]%elem_of_cons; [lia|]. specialize (Hs x Hx). lia.
Qed.

(** The maximum of a column is one of its values and bounds them all. *)
Lemma series_max_spec s m :
  series_max s = Some m ↔ m ∈ s ∧ ∀ x, x ∈ s → x ≤ m.
Proof.
  destruct s as [|a s]; simpl.
  { split; [done|]. intros [H _]. by inversion H. }
  destruct (foldr_max_spec a s) as (Hin & Ha & Hs).
  assert (foldr Z.max a s ∈ a :: s) as Hin'.
  { destruct Hin as [->|?]; [left|by right]. }
  assert (∀ x, x ∈ a :: s → x ≤ foldr Z.max a s) as Hle.
  { intros x [->|Hx]%elem_of_cons; auto. }
  split.
  - by intros [= <-].
  - intros [Hm Hmax]. f_equal. apply Z.le_antisymm; auto.
Qed.

Lemma series_min_spec s m :
  series_min s = Some m ↔ m ∈ s ∧ ∀ x, x ∈ s → m ≤ x.
Proof.
  destruct s as [|a s]; simpl.
  { split; [done|]. intros [H _]. by inversion H. }
  destruct (foldr_min_spec a s) as (Hin & Ha & Hs).
  assert (foldr Z.min a s ∈ a :: s) as Hin'.
  { destruct Hin as [->|?]; [left|by right]. }
  assert (∀ x, x ∈ a :: s → foldr Z.min a s ≤ x) as Hle.
  { intros x [->|Hx]%elem_of_cons; auto. }
  split.
  - by intros [= <-].
  - intros [Hm Hmin]. f_equal. apply Z.le_antisymm; auto.
Qed.

Lemma series_max_is_Some s : s ≠ [] → is_Some (series_max s).
Proof. destruct s; [done|]. by eexists. Qed.

(** [unique] keeps exactly the values of the column, once each. *)
Lemma elem_of_unique l x : x ∈ unique l ↔ x ∈ l.
Proof.
  induction l as [|y l IH]; simpl; [done|].
  rewrite !elem_of_cons, list_elem_of_filter, IH.
  destruct (decide (x = y)); tauto.
Qed.

Lemma NoDup_unique l : NoDup (unique l).
Proof.
  induction l as [|y l IH]; simpl; [constructor|].
  constructor; [|by apply NoDup_filter].
  rewrite list_elem_of_filter. tauto.
Qed.

Lemma unique_NoDup l : NoDup l → unique l = l.
Proof.
  induction 1 as [|y l Hy Hnd IH]; simpl; [done|]. rewrite IH. f_equal.
  clear IH Hnd. induction l as [|z l IH]; [done|].
  apply not_elem_of_cons in Hy as [? ?].
  rewrite filter_cons_True by done. f_equal. auto.
Qed.

Lemma nunique_distinct_count l : distinct_count l (nunique l).
Proof.
  exists (unique l). split; [apply NoDup_unique|].
  split; [apply elem_of_unique|done].
Qed.

(** The distinct count of a column is unique. *)
Lemma distinct_count_inj l n1 n2 :
  distinct_count l n1 → distinct_count l n2 → n1 = n2.
Proof.
  intros (ids1 & Hnd1 & Hin1 & ->) (ids2 & Hnd2 & Hin2 & ->).
  apply Permutation_length, NoDup_Permutation; [done..|].
  intros x. by rewrite Hin1, Hin2.
Qed.

Lemma nunique_le_length l : (nunique l ≤ length l)%nat.
Proof.
  unfold nunique. induction l as [|y l IH]; simpl; [lia|].
  pose proof (length_filter (λ z, z ≠ y) (unique l)). lia.
Qed.

Lemma nunique_length_NoDup l : nunique l = length l → NoDup l.
Proof.
  unfold nunique. induction l as [|y l IH]; simpl; [constructor|].
  intros Hlen.
  pose proof (length_filter (λ z, z ≠ y) (unique l)) as Hf.
  pose proof (nunique_le_length l) as Hu. unfold nunique in Hu.
  assert (NoDup l) as Hnd by (apply IH; lia).
  constructor; [|done]. intros Hy.
  rewrite (unique_NoDup l Hnd) in Hlen.
  pose proof (length_filter_lt (λ z, z ≠ y) l y Hy ltac:(tauto)). lia.
Qed.

(** A repeated value makes the distinct count smaller than the row
    count. *)
Lemma nunique_lt_length l : ¬ NoDup l → (nunique l < length l)%nat.
Proof.
  intros Hdup. pose proof (nunique_le_length l).
  destruct (decide (nunique l = length l)) as [Heq|]; [|lia].
  by apply nunique_length_NoDup in Heq.
Qed.
End reductions.

(** ** The calendar *)

Section calendar.
Ltac div_lia := Z.to_euclidean_division_equations; lia.

Lemma dt_date_mono a b : a ≤ b → dt_date a ≤ dt_date b.
Proof. intros. unfold dt_date, ns_per_day. by apply Z.div_le_mono. Qed.

Lemma dt_date_day_start d : dt_date (day_start d) = d.
Proof. unfold dt_date, day_start, ns_per_day. by apply Z.div_mul. Qed.

Lemma day_start_lt a b : a < b → day_start a < day_start b.
Proof. unfold day_start, ns_per_day. lia. Qed.

Lemma floor_day_le ts : floor_day ts ≤ ts < floor_day ts + ns_per_day.
Proof. unfold floor_day, day_start, dt_date, ns_per_day. div_lia. Qed.

Lemma mp_of_bracket doy :
  0 ≤ doy ≤ 365 →
  0 ≤ mp_of doy ≤ 11
  ∧ mp_start (mp_of doy) ≤ doy < mp_start (mp_of doy + 1).
Proof. unfold mp_of, mp_start. intros. div_lia. Qed.

Lemma yoe_of_bracket doe :
  0 ≤ doe < 146097 →
  0 ≤ yoe_of doe ≤ 399
  ∧ 0 ≤ doe - year_start (yoe_of doe) ≤ 365
  ∧ (doe < year_start (yoe_of doe + 1) ∨ yoe_of doe = 399).
Proof. intros H. unfold yoe_of, year_start. div_lia. Qed.

Lemma march_start_eq era yoe mp :
  0 ≤ yoe ≤ 399 → 0 ≤ mp ≤ 11 →
  march_start (12 * (yoe + era * 400) + mp)
  = era * 146097 + year_start yoe + mp_start mp - 719468.
Proof.
  intros. unfold march_start, year_start, mp_start.
  replace ((12 * (yoe + era * 400) + mp) / 12) with (yoe + era * 400)
    by div_lia.
  replace ((12 * (yoe + era * 400) + mp) `mod` 12) with mp by div_lia.
  div_lia.
Qed.

Lemma month_start_march k : month_start k = march_start (k - 2).
Proof.
  unfold month_start, march_start, days_from_civil.
  repeat case_bool_decide; div_lia.
Qed.

Lemma march_start_lt j : march_start j < march_start (j + 1).
Proof. unfold march_start. div_lia. Qed.

Lemma month_index_march z :
  let doe := (z + 719468) `mod` 146097 in
  let yoe := yoe_of doe in
  month_index z
  = 12 * (yoe + (z + 719468) / 146097 * 400)
    + mp_of (doe - year_start yoe) + 2.
Proof.
  intros doe yoe. unfold month_index, civil_from_days.
  assert (0 ≤ doe < 146097) as Hdoe by (apply Z.mod_pos_bound; lia).
  replace (z + 719468 - (z + 719468) / 146097 * 146097) with doe
    by (subst doe; div_lia).
  fold (yoe_of doe). fold yoe. fold (year_start yoe).
  fold (mp_of (doe - year_start yoe)).
  destruct (yoe_of_bracket doe Hdoe) as (_ & Hdoy & _). fold yoe in Hdoy.
  destruct (mp_of_bracket _ Hdoy) as [Hmp _].
  revert Hmp. generalize (mp_of (doe - year_start yoe)) as mp. intros mp Hmp.
  repeat case_bool_decide; lia.
Qed.

(** The date of a day number is a date of the calendar, and it has that
    day number. *)
Lemma days_from_civil_civil_from_days z :
  let '(y, m, d) := civil_from_days z in
  days_from_civil y m d = z ∧ 1 ≤ m ≤ 12 ∧ 1 ≤ d ≤ 31.
Proof.
  unfold civil_from_days.
  set (era := (z + 719468) / 146097).
  set (doe := z + 719468 - era * 146097).
  assert (0 ≤ doe < 146097) as Hdoe
    by (subst doe era; div_lia).
  fold (yoe_of doe). fold (year_start (yoe_of doe)).
  fold (mp_of (doe - year_start (yoe_of doe))).
  fold (mp_start (mp_of (doe - year_start (yoe_of doe)))).
  destruct (yoe_of_bracket doe Hdoe) as (Hyoe & Hdoy & _).
  destruct (mp_of_bracket _ Hdoy) as [Hmp Hin].
  assert (∀ mp, 0 ≤ mp ≤ 11 → mp_start (mp + 1) - mp_start mp ≤ 31) as Hlen.
  { intros mp ?. unfold mp_start. div_lia. }
  specialize (Hlen _ Hmp).
  revert Hmp Hin Hlen. generalize (mp_of (doe - year_start (yoe_of doe))) as mp.
  revert Hyoe Hdoy. generalize (yoe_of doe) as yoe.
  intros yoe Hyoe Hdoy mp Hmp Hin Hlen.
  assert (z = era * 146097 + doe - 719468) as Hz by (subst doe; lia).
  split; [|repeat case_bool_decide; lia].
  unfold days_from_civil.
  assert (∀ y', y' = yoe + era * 400 →
     y' / 400 * 146097
     + ((y' - y' / 400 * 400) * 365 + (y' - y' / 400 * 400) / 4
        - (y' - y' / 400 * 400) / 100
        + (mp_start mp + (doe - year_start yoe - mp_start mp + 1) - 1))
     - 719468 = z) as Hgoal.
  { intros y' ->. replace ((yoe + era * 400) / 400) with era
      by (div_lia).
    replace (yoe + era * 400 - era * 400) with yoe by lia.
    unfold year_start. lia. }
  unfold mp_start in *.
  repeat case_bool_decide; try lia.
  all: match goal with |- context [(153 * ?a + 2) / 5] =>
         replace a with mp by lia end.
  all: apply Hgoal; lia.
Qed.

(** A day lies in the month that [month_index] gives it. *)
Lemma month_index_bracket z :
  month_start (month_index z) ≤ z < month_start (month_index z + 1).
Proof.
  rewrite !month_start_march, month_index_march.
  set (era := (z + 719468) / 146097).
  set (doe := (z + 719468) `mod` 146097).
  assert (z = era * 146097 + doe - 719468) as Hz
    by (subst era doe; div_lia).
  assert (0 ≤ doe < 146097) as Hdoe by (apply Z.mod_pos_bound; lia).
  destruct (yoe_of_bracket doe Hdoe) as (Hyoe & Hdoy & Hnext).
  destruct (mp_of_bracket _ Hdoy) as [Hmp Hin].
  revert Hmp Hin. generalize (mp_of (doe - year_start (yoe_of doe))) as mp.
  revert Hyoe Hdoy Hnext. generalize (yoe_of doe) as yoe.
  intros yoe Hyoe Hdoy Hnext mp Hmp Hin.
  assert (year_start 0 = 0) as Hy0 by reflexivity.
  assert (mp_start 0 = 0) as Hm0 by reflexivity.
  assert (mp_start (11 + 1) = 367) as Hm12 by reflexivity.
  replace (12 * (yoe + era * 400) + mp + 2 - 2)
    with (12 * (yoe + era * 400) + mp) by lia.
  rewrite march_start_eq by lia. split; [lia|].
  destruct (decide (mp = 11)) as [->|].
  - destruct (decide (yoe = 399)) as [->|].
    + replace (12 * (399 + era * 400) + 11 + 2 + 1 - 2)
        with (12 * (0 + (era + 1) * 400) + 0) by lia.
      rewrite march_start_eq by lia. lia.
    + replace (12 * (yoe + era * 400) + 11 + 2 + 1 - 2)
        with (12 * ((yoe + 1) + era * 400) + 0) by lia.
      rewrite march_start_eq by lia. lia.
  - replace (12 * (yoe + era * 400) + mp + 2 + 1 - 2)
      with (12 * (yoe + era * 400) + (mp + 1)) by lia.
    rewrite march_start_eq by lia. lia.
Qed.

Lemma month_start_lt_succ k : month_start k < month_start (k + 1).
Proof.
  rewrite !month_start_march.
  replace (k + 1 - 2) with (k - 2 + 1) by lia. apply march_start_lt.
Qed.

Lemma month_start_lt a b : a < b → month_start a < month_start b.
Proof.
  intros Hab. replace b with (a + 1 + Z.of_nat (Z.to_nat (b - a - 1))) by lia.
  induction (Z.to_nat (b - a - 1)) as [|n IH].
  - rewrite Z.add_0_r. apply month_start_lt_succ.
  - etrans; [apply IH|].
    replace (a + 1 + Z.of_nat (S n)) with (a + 1 + Z.of_nat n + 1) by lia.
    apply month_start_lt_succ.
Qed.

Lemma month_start_le a b : a ≤ b → month_start a ≤ month_start b.
Proof.
  intros Hab. destruct (decide (a = b)) as [->|]; [done|].
  apply Z.lt_le_incl, month_start_lt. lia.
Qed.

(** The month of a day is the only month whose days enclose it. *)
Lemma month_index_unique z k :
  month_start k ≤ z < month_start (k + 1) → month_index z = k.
Proof.
  intros Hk. pose proof (month_index_bracket z) as Hj.
  destruct (Z.lt_trichotomy (month_index z) k) as [Hlt|[?|Hgt]]; [|done|].
  - pose proof (month_start_le (month_index z + 1) k ltac:(lia)). lia.
  - pose proof (month_start_le (k + 1) (month_index z) ltac:(lia)). lia.
Qed.

Lemma month_index_mono a b : a ≤ b → month_index a ≤ month_index b.
Proof.
  intros Hab. pose proof (month_index_bracket a) as Ha.
  pose proof (month_index_bracket b) as Hb.
  destruct (decide (month_index a ≤ month_index b)) as [|Hn]; [done|].
  pose proof (month_start_le (month_index b + 1) (month_index a) ltac:(lia)).
  lia.
Qed.

Lemma day_bin_mono a b : a ≤ b → day_bin a ≤ day_bin b.
Proof. apply dt_date_mono. Qed.

Lemma month_bin_mono a b : a ≤ b → month_bin a ≤ month_bin b.
Proof. intros. by apply month_index_mono, dt_date_mono. Qed.

Lemma day_label_lt a b : a < b → day_label a < day_label b.
Proof. apply day_start_lt. Qed.

Lemma month_label_lt a b : a < b → month_label a < month_label b.
Proof.
  intros. apply day_start_lt.
  pose proof (month_start_lt (a + 1) (b + 1) ltac:(lia)). lia.
Qed.

(** The label of a monthly bucket is a day of that month, and the next
    day belongs to the next month: it is the month's last day. *)
Lemma month_label_last_day k :
  month_index (dt_date (month_label k)) = k
  ∧ month_index (dt_date (month_label k) + 1) = k + 1.
Proof.
  unfold month_label. rewrite dt_date_day_start.
  pose proof (month_start_lt_succ k).
  pose proof (month_start_lt_succ (k + 1)).
  split; apply month_index_unique; lia.
Qed.

Example epoch_is_1970_01_01 : civil_from_days 0 = (1970, 1, 1).
Proof. reflexivity. Qed.

Example leap_day_2016 :
  civil_from_days (days_from_civil 2016 2 28 + 1) = (2016, 2, 29)
  ∧ civil_from_days (days_from_civil 1900 2 28 + 1) = (1900, 3, 1)
  ∧ civil_from_days (days_from_civil 2000 2 28 + 1) = (2000, 2, 29).
Proof. done. Qed.

Example month_label_february_2017 :
  civil_from_days (dt_date (month_label (12 * 2017 + 1))) = (2017, 2, 28).
Proof. reflexivity. Qed.
End calendar.

(** ** The filter engine *)

Section filter_engine.
Implicit Types (df : DataFrame) (r : Row).

Lemma filter_data_ALL df start_date end_date :
  filter_data df start_date end_date "ALL"
  = filter (λ r, start_date ≤ dt_date (order_purchase_timestamp r)
               ∧ dt_date (order_purchase_timestamp r) ≤ end_date) df.
Proof. unfold filter_data. by case_decide. Qed.

Lemma filter_data_status df start_date end_date selected_status :
  selected_status ≠ "ALL" →
  filter_data df start_date end_date selected_status
  = filter (λ r, order_status r = selected_status)
      (filter (λ r, start_date ≤ dt_date (order_purchase_timestamp r)
                  ∧ dt_date (order_purchase_timestamp r) ≤ end_date) df).
Proof. intros. unfold filter_data. by case_decide. Qed.

Lemma elem_of_filter_data df start_date end_date selected_status r :
  r ∈ filter_data df start_date end_date selected_status ↔
    r ∈ df
    ∧ start_date ≤ dt_date (order_purchase_timestamp r) ≤ end_date
    ∧ (selected_status ≠ "ALL" → order_status r = selected_status).
Proof.
  unfold filter_data. case_decide.
  - rewrite !list_elem_of_filter. tauto.
  - rewrite list_elem_of_filter. tauto.
Qed.

Lemma filter_data_sublist df start_date end_date selected_status :
  filter_data df start_date end_date selected_status `sublist_of` df.
Proof.
  unfold filter_data. case_decide.
  - etrans; apply sublist_filter.
  - apply sublist_filter.
Qed.
End filter_engine.

(** C1. Whatever the table, the date bounds and the status selection (so
    in particular for every valid range), a row is in the output of
    [filter_data] exactly when it is a row of the input whose purchase
    date lies in [start_date, end_date] and whose status is the selected
    one unless the selection is ["ALL"]; the output keeps the input's
    row order and has at most as many rows as the input. *)
Theorem filter_data_spec (df : DataFrame) (start_date end_date : Z)
    (selected_status : string) :
  (∀ r, r ∈ filter_data df start_date end_date selected_status →
        start_date ≤ dt_date (order_purchase_timestamp r) ≤ end_date
        ∧ (selected_status ≠ "ALL" → order_status r = selected_status))
  ∧ filter_data df start_date end_date selected_status `sublist_of` df
  ∧ (length (filter_data df start_date end_date selected_status)
     ≤ length df)%nat.
Proof.
  split; [|split].
  - intros r Hr. apply elem_of_filter_data in Hr. tauto.
  - apply filter_data_sublist.
  - apply sublist_length, filter_data_sublist.
Qed.

(** C7. With the selection ["ALL"], [filter_data] returns exactly the
    rows picked by the date mask alone, hence as many rows as a filter
    with no status condition. *)
Theorem filter_data_ALL_is_date_filter (df : DataFrame)
    (start_date end_date : Z) :
  let date_only :=
    filter (λ r, start_date ≤ dt_date (order_purchase_timestamp r)
               ∧ dt_date (order_purchase_timestamp r) ≤ end_date) df in
  filter_data df start_date end_date "ALL" = date_only
  ∧ length (filter_data df start_date end_date "ALL") = length date_only.
Proof. intros date_only. by rewrite filter_data_ALL. Qed.

(** C10. With [start_date] after [end_date] no row passes the date mask:
    [filter_data], which is total, returns the empty view for every table
    and every selection. *)
Theorem filter_data_inverted_range (df : DataFrame) (start_date end_date : Z)
    (selected_status : string) :
  end_date < start_date →
  filter_data df start_date end_date selected_status = [].
Proof.
  intros Hlt. apply elem_of_nil_inv. intros r Hr.
  apply elem_of_filter_data in Hr. lia.
Qed.

Lemma filter_data_inverted_range_witness :
  days_from_civil 2017 1 15 < days_from_civil 2017 3 5
  ∧ filter_data sample_view (days_from_civil 2017 3 5)
      (days_from_civil 2017 1 15) "ALL" = [].
Proof.
  split; [done|]. apply (filter_data_inverted_range sample_view). done.
Defined.

(** ** Resampling *)

Section resample.
Context (bin label : Z → Z).
Hypothesis bin_mono : ∀ a b, a ≤ b → bin a ≤ bin b.
Implicit Types (df : DataFrame) (r : Row) (k : Z).

Lemma resample_nil : resample bin label [] = [].
Proof. reflexivity. Qed.

(** On a non-empty frame the buckets are those of the bins between the
    bins of the earliest and of the latest purchase. *)
Lemma resample_cons r df :
  ∃ first last,
    series_min (order_purchase_timestamp <$> r :: df) = Some first
    ∧ series_max (order_purchase_timestamp <$> r :: df) = Some last
    ∧ resample bin label (r :: df)
      = bucket_of bin label (r :: df) <$> seqZ (bin first) (bin last - bin first + 1).
Proof. unfold resample. simpl. eauto. Qed.

Lemma bin_in_range df first last r :
  series_min (order_purchase_timestamp <$> df) = Some first →
  series_max (order_purchase_timestamp <$> df) = Some last →
  r ∈ df →
  bin (order_purchase_timestamp r)
    ∈ seqZ (bin first) (bin last - bin first + 1).
Proof.
  intros [_ Hmin]%series_min_spec [_ Hmax]%series_max_spec Hr.
  apply (list_elem_of_fmap_2 order_purchase_timestamp) in Hr.
  pose proof (bin_mono _ _ (Hmin _ Hr)). pose proof (bin_mono _ _ (Hmax _ Hr)).
  apply elem_of_seqZ. lia.
Qed.



(** Every row lies in a bucket of the output: the one of its bin. *)
Lemma resample_bucket_of_row df r :
  r ∈ df →
  bucket_of bin label df (bin (order_purchase_timestamp r))
    ∈ resample bin label df.
Proof.
  intros Hr. destruct df as [|r0 df]; [by inversion Hr|].
  destruct (resample_cons r0 df) as (first & last & Hmin & Hmax & ->).
  apply list_elem_of_fmap_2. by eapply bin_in_range.
Qed.

(** Every bucket of the output is the bucket of some bin. *)
Lemma elem_of_resample df b :
  b ∈ resample bin label df → ∃ k, b = bucket_of bin label df k.
Proof.
  destruct df as [|r0 df]; [by inversion 1|].
  destruct (resample_cons r0 df) as (first & last & _ & _ & ->).
  intros (k & -> & _)%list_elem_of_fmap. eauto.
Qed.

Lemma StronglySorted_seqZ m n : StronglySorted Z.lt (seqZ m n).
Proof.
  apply Sorted_StronglySorted; [apply _|].
  destruct (decide (0 ≤ n)) as [Hn|]; [|rewrite seqZ_nil by lia; constructor].
  rewrite <-(Z2Nat.id n) by done. clear Hn.
  revert m. induction (Z.to_nat n) as [|p IH]; intros m; [constructor|].
  rewrite seqZ_cons by lia.
  replace (Z.pred (Z.of_nat (S p))) with (Z.of_nat p) by lia.
  constructor; [apply IH|].
  destruct p as [|p]; [constructor|].
  rewrite seqZ_cons by lia. constructor. lia.
Qed.

(** Labels that grow with the bins give buckets in increasing order of
    their timestamps. *)
Lemma resample_sorted df :
  (∀ a b, a < b → label a < label b) →
  StronglySorted Z.lt (bucket_timestamp <$> resample bin label df).
Proof.
  intros Hlabel. destruct df as [|r0 df]; [constructor|].
  destruct (resample_cons r0 df) as (first & last & _ & _ & ->).
  rewrite <-list_fmap_compose.
  eapply StronglySorted_fmap; [|apply StronglySorted_seqZ]. apply Hlabel.
Qed.
End resample.

(** ** Daily and monthly orders *)

Section time_buckets.
Implicit Types (df : DataFrame) (b : Bucket).



Lemma create_daily_orders_bucket df b :
  b ∈ create_daily_orders df →
  ∃ d, bucket_timestamp b = day_start d
       ∧ bucket_order_id b = nunique (order_id <$> rows_on_day d df)
       ∧ bucket_payment_value b
         = series_sum (payment_value <$> rows_on_day d df).
Proof. intros [d ->]%elem_of_resample. by exists d. Qed.

Lemma create_monthly_orders_bucket df b :
  b ∈ create_monthly_orders df →
  ∃ k, bucket_timestamp b = month_label k
       ∧ bucket_order_id b = nunique (order_id <$> rows_in_month k df)
       ∧ bucket_payment_value b
         = series_sum (payment_value <$> rows_in_month k df).
Proof. intros [k ->]%elem_of_resample. by exists k. Qed.
End time_buckets.

(** The monthly table of the sample view: January with two distinct
    orders on three rows, an empty February, and March. *)
Example create_monthly_orders_sample :
  (λ b, (civil_from_days (dt_date (bucket_timestamp b)),
         bucket_order_id b, bucket_payment_value b))
    <$> create_monthly_orders sample_view
  = [ ((2017, 1, 31), 2%nat, 2200);
      ((2017, 2, 28), 0%nat, 0);
      ((2017, 3, 31), 1%nat, 100) ].
Proof. vm_compute. reflexivity. Qed.

Example create_daily_orders_mid_january :
  create_daily_orders mid_january
  = [ mkBucket (timestamp_of 2017 1 15 0) 1 1000 ].
Proof. vm_compute. reflexivity. Qed.


(** C4, as the code has it. Every row of a view has its daily bucket,
    whose timestamp is the purchase timestamp truncated to the day and
    whose figures are the distinct order-identifier count and the payment
    sum of the rows of that day. Every row has its monthly bucket, whose
    figures are those of the rows of the same calendar month, but whose
    timestamp is midnight of the last day of that month, not the first.
    Every bucket of either table carries the figures of the rows of its
    day or month, and both tables are in strictly increasing order of
    their timestamps. *)
Theorem time_buckets_spec (df : DataFrame) :
  (∀ r, r ∈ df →
     let d := dt_date (order_purchase_timestamp r) in
     ∃ b, b ∈ create_daily_orders df
          ∧ bucket_timestamp b = floor_day (order_purchase_timestamp r)
          ∧ bucket_order_id b = nunique (order_id <$> rows_on_day d df)
          ∧ bucket_payment_value b
            = series_sum (payment_value <$> rows_on_day d df))
  ∧ (∀ r, r ∈ df →
       let k := month_index (dt_date (order_purchase_timestamp r)) in
       ∃ b, b ∈ create_monthly_orders df
            ∧ bucket_timestamp b = day_start (month_start (k + 1) - 1)
            ∧ month_index (dt_date (bucket_timestamp b)) = k
            ∧ month_index (dt_date (bucket_timestamp b) + 1) = k + 1
            ∧ bucket_order_id b = nunique (order_id <$> rows_in_month k df)
            ∧ bucket_payment_value b
              = series_sum (payment_value <$> rows_in_month k df))
  ∧ (∀ b, b ∈ create_daily_orders df →
       ∃ d, bucket_timestamp b = day_start d
            ∧ bucket_order_id b = nunique (order_id <$> rows_on_day d df)
            ∧ bucket_payment_value b
              = series_sum (payment_value <$> rows_on_day d df))
  ∧ (∀ b, b ∈ create_monthly_orders df →
       ∃ k, bucket_timestamp b = day_start (month_start (k + 1) - 1)
            ∧ bucket_order_id b = nunique (order_id <$> rows_in_month k df)
            ∧ bucket_payment_value b
              = series_sum (payment_value <$> rows_in_month k df))
  ∧ StronglySorted Z.lt (bucket_timestamp <$> create_daily_orders df)
  ∧ StronglySorted Z.lt (bucket_timestamp <$> create_monthly_orders df).
Proof.
  repeat split.
  - intros r Hr d.
    exists (bucket_of day_bin day_label df (day_bin (order_purchase_timestamp r))).
    split; [|done]. apply resample_bucket_of_row; [apply day_bin_mono|done].
  - intros r Hr k.
    exists (bucket_of month_bin month_label df
              (month_bin (order_purchase_timestamp r))).
    split; [apply resample_bucket_of_row; [apply month_bin_mono|done]|].
    split; [done|]. destruct (month_label_last_day k). done.
  - apply create_daily_orders_bucket.
  - apply create_monthly_orders_bucket.
  - apply resample_sorted, day_label_lt.
  - apply resample_sorted, month_label_lt.
Qed.

(** C4 as stated fails: the monthly bucket of an order placed on
    2017-01-15 is stamped 2017-01-31, not 2017-01-01, the purchase
    timestamp truncated to the month. *)
Lemma monthly_bucket_not_month_start :
  ¬ (∀ r, r ∈ mid_january →
       ∃ b, b ∈ create_monthly_orders mid_january
            ∧ bucket_timestamp b = floor_month (order_purchase_timestamp r)).
Proof.
  intros H.
  destruct (H _ ltac:(left)) as (b & Hb & Hts).
  vm_compute in Hb, Hts. apply list_elem_of_singleton in Hb. by subst b.
Qed.

(** C5. In a view whose order-identifier column repeats a value, the
    total-orders metric is the number of distinct order identifiers and is
    smaller than the number of rows; the order count of every daily and
    monthly bucket is the number of distinct order identifiers of the
    bucket's rows, never more than their number and smaller as soon as
    they repeat an identifier. *)
Theorem order_counts_are_distinct_counts (df : DataFrame) :
  ¬ NoDup (order_id <$> df) →
  distinct_count (order_id <$> df) (total_orders df)
  ∧ (total_orders df < length df)%nat
  ∧ (∀ b, b ∈ create_daily_orders df →
       ∃ d, bucket_timestamp b = day_start d
            ∧ distinct_count (order_id <$> rows_on_day d df) (bucket_order_id b)
            ∧ (bucket_order_id b ≤ length (rows_on_day d df))%nat
            ∧ (¬ NoDup (order_id <$> rows_on_day d df) →
               (bucket_order_id b < length (rows_on_day d df))%nat))
  ∧ (∀ b, b ∈ create_monthly_orders df →
       ∃ k, bucket_timestamp b = month_label k
            ∧ distinct_count (order_id <$> rows_in_month k df)
                (bucket_order_id b)
            ∧ (bucket_order_id b ≤ length (rows_in_month k df))%nat
            ∧ (¬ NoDup (order_id <$> rows_in_month k df) →
               (bucket_order_id b < length (rows_in_month k df))%nat)).
Proof.
  intros Hdup. split; [apply nunique_distinct_count|].
  split.
  { unfold total_orders. rewrite <-(length_fmap order_id df).
    by apply nunique_lt_length. }
  split.
  - intros b (d & Hts & -> & _)%create_daily_orders_bucket.
    exists d. split; [done|]. split; [apply nunique_distinct_count|].
    rewrite <-(length_fmap order_id (rows_on_day d df)).
    split; [apply nunique_le_length|apply nunique_lt_length].
  - intros b (k & Hts & -> & _)%create_monthly_orders_bucket.
    exists k. split; [done|]. split; [apply nunique_distinct_count|].
    rewrite <-(length_fmap order_id (rows_in_month k df)).
    split; [apply nunique_le_length|apply nunique_lt_length].
Qed.

Lemma order_counts_are_distinct_counts_witness :
  ¬ NoDup (order_id <$> sample_view)
  ∧ distinct_count (order_id <$> sample_view) 3
  ∧ (total_orders sample_view < length sample_view)%nat.
Proof.
  assert (¬ NoDup (order_id <$> sample_view)) as Hdup.
  { intros Hnd. apply NoDup_cons in Hnd as [Hnotin _]. apply Hnotin. left. }
  destruct (order_counts_are_distinct_counts sample_view Hdup) as (H1 & H2 & _).
  split; [exact Hdup|]. split; [exact H1|exact H2].
Defined.

(** ** Grouping *)

Section grouping.
Context (col : Row → string).
Implicit Types (df : DataFrame) (k : string).

Lemma group_keys_Permutation df :
  group_keys col df ≡ₚ unique (col <$> df).
Proof. apply merge_sort_Permutation. Qed.

Lemma elem_of_group_keys df k : k ∈ group_keys col df ↔ k ∈ col <$> df.
Proof. by rewrite group_keys_Permutation, elem_of_unique. Qed.

Lemma NoDup_group_keys df : NoDup (group_keys col df).
Proof. rewrite group_keys_Permutation. apply NoDup_unique. Qed.

Lemma group_keys_sorted df : StronglySorted String.le (group_keys col df).
Proof. apply StronglySorted_merge_sort; apply _. Qed.

Lemma group_keys_nil : group_keys col [] = [].
Proof. reflexivity. Qed.

Lemma get_group_nonempty df k : k ∈ col <$> df → get_group col k df ≠ [].
Proof.
  intros (r & -> & Hr)%list_elem_of_fmap Hnil.
  by apply (filter_nil_not_elem_of _ _ r) in Hnil.
Qed.
End grouping.

(** A sorted list without repetition is strictly sorted. *)
Lemma StronglySorted_strict {A} (R : relation A) `{!AntiSymm (=) R}
    (l : list A) :
  StronglySorted R l → NoDup l → StronglySorted (strict R) l.
Proof.
  induction 1 as [|x l Hl IH Hx]; intros Hnd; [constructor|].
  apply NoDup_cons in Hnd as [Hnotin Hnd]. constructor; [by apply IH|].
  apply Forall_forall. intros y Hy. rewrite Forall_forall in Hx.
  split; [by apply Hx|]. intros Hyx.
  assert (x = y) as -> by (apply (anti_symm R); auto). done.
Qed.

(** ** Factorizing *)

Section factorize.
Implicit Types (l : list string).

Lemma index_of_lookup l i x : NoDup l → l !! i = Some x → index_of x l = i.
Proof.
  intros Hnd. revert i. induction Hnd as [|y l Hy Hnd IH]; intros i Hi.
  { by rewrite lookup_nil in Hi. }
  simpl. destruct i as [|i]; simpl in Hi.
  - injection Hi as ->. by rewrite decide_True.
  - rewrite decide_False; [by rewrite (IH i)|].
    intros ->. apply Hy. by eapply list_elem_of_lookup_2.
Qed.

(** The codes of a column without repetition count its rows from 0. *)
Lemma factorize_NoDup l :
  NoDup l → factorize l = (seq 0 (length l), l).
Proof.
  intros Hnd. unfold factorize. rewrite (unique_NoDup l Hnd). f_equal.
  apply list_eq. intros i. rewrite list_lookup_fmap.
  destruct (l !! i) as [x|] eqn:Hi; simpl.
  - rewrite (index_of_lookup l i x) by done.
    symmetry. apply lookup_seq_lt. by eapply lookup_lt_Some.
  - symmetry. apply lookup_seq_ge. by apply lookup_ge_None.
Qed.
End factorize.

(** ** The RFM table *)

Section rfm.
Implicit Types (df : DataFrame) (row : RfmRow).

(** The table has one row per group key, numbered from 1 in the order
    of the keys. *)
Lemma create_rfm_analysis_imap df :
  create_rfm_analysis df = imap (rfm_row df) (group_keys customer_id df).
Proof.
  unfold create_rfm_analysis.
  rewrite <-list_fmap_compose.
  rewrite (fmap_ext_in _ id) by done. rewrite list_fmap_id.
  rewrite factorize_NoDup by apply NoDup_group_keys. simpl.
  apply list_eq. intros i.
  rewrite lookup_zip_with, list_lookup_fmap, list_lookup_imap.
  destruct (group_keys customer_id df !! i) as [c|] eqn:Hi; simpl; [|done].
  rewrite lookup_seq_lt by (by eapply lookup_lt_Some). done.
Qed.

Lemma create_rfm_analysis_lookup df i row :
  create_rfm_analysis df !! i = Some row ↔
  ∃ c, group_keys customer_id df !! i = Some c ∧ row = rfm_row df i c.
Proof.
  rewrite create_rfm_analysis_imap, list_lookup_imap.
  destruct (group_keys customer_id df !! i) as [c|]; simpl.
  - split; [intros [= <-]; eauto|]. by intros (? & [= <-] & ->).
  - split; [done|]. by intros (? & ? & _).
Qed.

Lemma create_rfm_analysis_customers df :
  rfm_customer_id <$> create_rfm_analysis df = group_keys customer_id df.
Proof.
  rewrite create_rfm_analysis_imap, fmap_imap.
  rewrite (imap_ext _ (λ _ c, c)) by done.
  induction (group_keys customer_id df) as [|c l IH]; [done|].
  simpl. f_equal. apply IH.
Qed.
End rfm.

Example create_rfm_analysis_sample :
  create_rfm_analysis sample_view
  = [ mkRfmRow "ca" (Some 32) 1 700 1; mkRfmRow "cb" (Some 0) 3 1600 2 ].
Proof. vm_compute. reflexivity. Qed.

Example create_geoanalysis_sample :
  create_geoanalysis sample_view = [ ("RJ", 700); ("SP", 1600) ].
Proof. vm_compute. reflexivity. Qed.

(** C3. On a non-empty view the RFM table has exactly one row per
    customer identifier of the view. With [now] the latest purchase
    timestamp of the whole view, the row of a customer holds as recency
    the whole days from that customer's latest purchase to [now], as
    frequency the number of the customer's rows and as monetary the sum of
    their payment values; a customer who made a purchase at [now] has
    recency 0. *)
Theorem rfm_spec (df : DataFrame) :
  df ≠ [] →
  ∃ now,
    now ∈ order_purchase_timestamp <$> df
    ∧ (∀ t, t ∈ order_purchase_timestamp <$> df → t ≤ now)
    ∧ NoDup (rfm_customer_id <$> create_rfm_analysis df)
    ∧ (∀ c, c ∈ rfm_customer_id <$> create_rfm_analysis df
            ↔ c ∈ customer_id <$> df)
    ∧ (∀ row, row ∈ create_rfm_analysis df →
         let x := rows_of_customer (rfm_customer_id row) df in
         ∃ last,
           last ∈ order_purchase_timestamp <$> x
           ∧ (∀ t, t ∈ order_purchase_timestamp <$> x → t ≤ last)
           ∧ recency row = Some (timedelta_days (now - last))
           ∧ frequency row = length x
           ∧ monetary row = series_sum (payment_value <$> x))
    ∧ (∀ row r, row ∈ create_rfm_analysis df → r ∈ df →
         customer_id r = rfm_customer_id row →
         order_purchase_timestamp r = now →
         recency row = Some 0).
Proof.
  intros Hne.
  destruct (series_max_is_Some (order_purchase_timestamp <$> df)) as [now Hnow].
  { by destruct df. }
  pose proof Hnow as [Hnow_in Hnow_max]%series_max_spec.
  assert (∀ row, row ∈ create_rfm_analysis df →
            let x := rows_of_customer (rfm_customer_id row) df in
            ∃ last,
              series_max (order_purchase_timestamp <$> x) = Some last
              ∧ recency row = Some (timedelta_days (now - last))
              ∧ frequency row = length x
              ∧ monetary row = series_sum (payment_value <$> x)) as Hrows.
  { intros row (i & Hi)%list_elem_of_lookup.
    apply create_rfm_analysis_lookup in Hi as (c & Hc & ->). simpl.
    apply list_elem_of_lookup_2, elem_of_group_keys in Hc.
    destruct (series_max_is_Some
                (order_purchase_timestamp <$> rows_of_customer c df))
      as [last Hlast].
    { intros Hnil%fmap_nil_inv. by apply (get_group_nonempty customer_id df c). }
    exists last. split; [done|]. unfold get_group, rows_of_customer in *.
    rewrite Hnow, Hlast. simpl. unfold series_count.
    by rewrite length_fmap. }
  exists now. split; [done|]. split; [done|].
  rewrite create_rfm_analysis_customers.
  split; [apply NoDup_group_keys|]. split; [apply elem_of_group_keys|].
  split.
  - intros row Hrow x. destruct (Hrows row Hrow) as (last & Hlast & Hrest).
    apply series_max_spec in Hlast as [? ?]. eauto.
  - intros row r Hrow Hr Hcust Hts.
    destruct (Hrows row Hrow) as (last & Hlast & -> & _).
    apply series_max_spec in Hlast as [Hlast_in Hlast_max].
    assert (now ≤ last).
    { apply Hlast_max. rewrite <-Hts. apply list_elem_of_fmap_2.
      by apply list_elem_of_filter. }
    assert (last ≤ now).
    { apply Hnow_max. apply list_elem_of_fmap in Hlast_in as (r' & -> & Hr').
      apply list_elem_of_fmap_2. by apply list_elem_of_filter in Hr' as [_ ?]. }
    by replace (now - last) with 0 by lia.
Qed.

Lemma rfm_spec_witness :
  sample_view ≠ []
  ∧ ∃ now, now ∈ order_purchase_timestamp <$> sample_view
           ∧ NoDup (rfm_customer_id <$> create_rfm_analysis sample_view).
Proof.
  split; [done|].
  destruct (rfm_spec sample_view ltac:(done)) as (now & Hin & _ & Hnd & _).
  exists now. split; [exact Hin|exact Hnd].
Defined.

(** C8, as the code has it. The RFM table has one row per distinct
    customer identifier of the view, and the [numeric_id] column numbers
    its rows 1, 2, ... in the order of the table, which lists the
    identifiers in strictly ascending order: the labels are dense and
    1-based, two distinct customers never share one, and they follow the
    sorted identifiers, not the order of first appearance in the view. *)
Theorem numeric_id_spec (df : DataFrame) :
  let rfm_df := create_rfm_analysis df in
  length rfm_df = nunique (customer_id <$> df)
  ∧ numeric_id <$> rfm_df = seq 1 (length rfm_df)
  ∧ (∀ i row, rfm_df !! i = Some row → numeric_id row = S i)
  ∧ StronglySorted (strict String.le) (rfm_customer_id <$> rfm_df)
  ∧ (∀ c, c ∈ customer_id <$> df →
       ∃ row, row ∈ rfm_df ∧ rfm_customer_id row = c)
  ∧ (∀ row1 row2, row1 ∈ rfm_df → row2 ∈ rfm_df →
       rfm_customer_id row1 ≠ rfm_customer_id row2 →
       numeric_id row1 ≠ numeric_id row2).
Proof.
  intros rfm_df.
  assert (∀ i row, rfm_df !! i = Some row → numeric_id row = S i) as Hid.
  { intros i row (c & _ & ->)%create_rfm_analysis_lookup. simpl. lia. }
  split; [|split; [|split; [done|split; [|split]]]].
  - subst rfm_df. rewrite <-(length_fmap rfm_customer_id).
    rewrite create_rfm_analysis_customers.
    apply Permutation_length, group_keys_Permutation.
  - apply list_eq. intros i. rewrite list_lookup_fmap.
    destruct (rfm_df !! i) as [row|] eqn:Hi; simpl.
    + rewrite (Hid i row Hi). symmetry.
      apply lookup_seq_lt. by eapply lookup_lt_Some.
    + symmetry. apply lookup_seq_ge. by apply lookup_ge_None.
  - subst rfm_df. rewrite create_rfm_analysis_customers.
    apply StronglySorted_strict; [apply _|apply group_keys_sorted|].
    apply NoDup_group_keys.
  - intros c Hc. apply (elem_of_group_keys customer_id) in Hc.
    subst rfm_df. rewrite <-create_rfm_analysis_customers in Hc.
    apply list_elem_of_fmap in Hc as (row & -> & Hrow). eauto.
  - intros row1 row2 (i & Hi)%list_elem_of_lookup (j & Hj)%list_elem_of_lookup
      Hne Heq.
    rewrite (Hid i row1 Hi), (Hid j row2 Hj) in Heq.
    injection Heq as ->. congruence.
Qed.

(** C8 as stated fails: in a view where customer ["b"] appears before
    customer ["a"], the label of ["a"] is 1 although ["a"] is the second
    identifier seen. *)
Lemma numeric_id_not_first_seen :
  ¬ (∀ row, row ∈ create_rfm_analysis two_customers →
       numeric_id row
       = S (index_of (rfm_customer_id row)
              (unique (customer_id <$> two_customers)))).
Proof.
  intros H.
  specialize (H (rfm_row two_customers 0 "a")).
  assert (rfm_row two_customers 0 "a" ∈ create_rfm_analysis two_customers)
    as Hin by (vm_compute; left).
  specialize (H Hin). vm_compute in H. discriminate H.
Qed.

(** C9. The payment sums of the geo summary are in non-decreasing order;
    the summary lists every customer state of the view once, with the sum
    of the payment values of its rows. *)
Theorem geoanalysis_sorted (df : DataFrame) :
  StronglySorted Z.le ((λ p, p.2) <$> create_geoanalysis df)
  ∧ create_geoanalysis df
    ≡ₚ (λ k, (k, series_sum
                   (payment_value <$> filter (λ r, customer_state r = k) df)))
       <$> group_keys customer_state df.
Proof.
  split; [|apply merge_sort_Permutation].
  eapply StronglySorted_fmap; [|apply StronglySorted_merge_sort].
  - intros x y Hxy. exact Hxy.
  - intros x y z. unfold by_value. lia.
  - intros x y. unfold by_value. lia.
Qed.

(** C6. On the empty view every aggregator returns the empty table. *)
Theorem aggregators_on_empty_view :
  create_daily_orders [] = []
  ∧ create_monthly_orders [] = []
  ∧ create_best_worst_categories [] = []
  ∧ create_rfm_analysis [] = []
  ∧ create_geoanalysis [] = [].
Proof. repeat split. Qed.

(** * Further properties *)

(** ** Sums and counts by key *)

Section by_key.
Context {A K : Type} `{EqDecision K} (key : A → K).
Implicit Types (l : list A) (ks : list K).

Lemma sum_list_fmap_add (f g : K → nat) ks :
  sum_list ((λ k, f k + g k)%nat <$> ks)
  = (sum_list (f <$> ks) + sum_list (g <$> ks))%nat.
Proof. induction ks as [|k ks IH]; csimpl; [done|]. rewrite IH. lia. Qed.

Lemma sum_list_fmap_zero ks : sum_list ((λ _, 0%nat) <$> ks) = 0%nat.
Proof. induction ks as [|k ks IH]; csimpl; [done|]. by rewrite IH. Qed.

Lemma sum_list_select (x : K) (n : nat) ks :
  NoDup ks → x ∈ ks →
  sum_list ((λ k, if decide (k = x) then n else 0%nat) <$> ks) = n.
Proof.
  induction 1 as [|k ks Hk Hnd IH]; intros Hx; [by inversion Hx|].
  csimpl. case_decide as Hkx.
  - subst k. rewrite (fmap_ext_in _ (λ _, 0%nat) ks).
    + rewrite sum_list_fmap_zero. lia.
    + intros k Hk'. case_decide; [|done]. by subst k.
  - apply elem_of_cons in Hx as [?|Hx]; [done|]. by rewrite IH.
Qed.


(** Counting the elements key by key, over duplicate-free keys that
    cover them, counts the elements. *)
Lemma length_by_key ks l :
  NoDup ks → (∀ a, a ∈ l → key a ∈ ks) →
  sum_list ((λ k, length (filter (λ a, key a = k) l)) <$> ks) = length l.
Proof.
  intros Hnd. induction l as [|a l IH]; intros Hcover.
  { apply sum_list_fmap_zero. }
  rewrite (fmap_ext_in _
    (λ k, (if decide (k = key a) then 1 else 0)
          + length (filter (λ a, key a = k) l))%nat).
  - rewrite sum_list_fmap_add, sum_list_select, IH; [done| |done|].
    + intros a' Ha'. apply Hcover. by right.
    + apply Hcover. left.
  - intros k _. rewrite filter_cons.
    destruct (decide (key a = k)) as [<-|Hne].
    + by rewrite decide_True.
    + by rewrite decide_False.
Qed.

End by_key.

(** ** The sidebar and the filter *)

Section sidebar.
Implicit Types (df : DataFrame) (r : Row).

Lemma sidebar_date_range_cons r df :
  ∃ min_ts max_ts,
    series_min (order_purchase_timestamp <$> r :: df) = Some min_ts
    ∧ series_max (order_purchase_timestamp <$> r :: df) = Some max_ts
    ∧ sidebar_date_range (r :: df) = Some (dt_date min_ts, dt_date max_ts).
Proof. unfold sidebar_date_range. simpl. eauto. Qed.

Lemma filter_all_rows {B} (P : B → Prop) `{∀ x, Decision (P x)} (l : list B) :
  (∀ x, x ∈ l → P x) → filter P l = l.
Proof.
  induction l as [|x l IH]; intros HP; [done|].
  rewrite filter_cons_True by (apply HP; left). f_equal.
  apply IH. intros y Hy. apply HP. by right.
Qed.

Lemma sidebar_date_range_covers df min_date max_date r :
  sidebar_date_range df = Some (min_date, max_date) → r ∈ df →
  min_date ≤ dt_date (order_purchase_timestamp r) ≤ max_date.
Proof.
  unfold sidebar_date_range. intros Hrange Hr.
  destruct (series_min _) as [min_ts|] eqn:Hmin; [|done].
  destruct (series_max _) as [max_ts|] eqn:Hmax; [|done].
  simpl in Hrange. injection Hrange as <- <-.
  apply series_min_spec in Hmin as [_ Hmin].
  apply series_max_spec in Hmax as [_ Hmax].
  apply (list_elem_of_fmap_2 order_purchase_timestamp) in Hr.
  split; apply dt_date_mono; auto.
Qed.

(** [filter_data] is one filter, by the conjunction of its masks. *)
Lemma filter_data_filter df start_date end_date selected_status :
  filter_data df start_date end_date selected_status
  = filter (λ r, (start_date ≤ dt_date (order_purchase_timestamp r)
                  ∧ dt_date (order_purchase_timestamp r) ≤ end_date)
                 ∧ (selected_status ≠ "ALL"
                    → order_status r = selected_status)) df.
Proof.
  unfold filter_data. case_decide as Hst.
  - rewrite list_filter_filter. apply list_filter_iff. intros r. tauto.
  - apply list_filter_iff. intros r. tauto.
Qed.
End sidebar.

(** X1. On a non-empty table the date picker of the sidebar is bounded
    by two dates, the earlier not after the later, that enclose the
    purchase date of every row; the default selection, this full range
    with status ["ALL"], makes [filter_data] return the whole table. *)
Theorem sidebar_default_selects_all (df : DataFrame) :
  df ≠ [] →
  ∃ min_date max_date,
    sidebar_date_range df = Some (min_date, max_date)
    ∧ min_date ≤ max_date
    ∧ (∀ r, r ∈ df →
         min_date ≤ dt_date (order_purchase_timestamp r) ≤ max_date)
    ∧ filter_data df min_date max_date "ALL" = df.
Proof.
  intros Hne. destruct df as [|r0 df]; [done|].
  destruct (sidebar_date_range_cons r0 df)
    as (min_ts & max_ts & Hmin & Hmax & ->).
  apply series_min_spec in Hmin as [Hmin_in Hmin].
  apply series_max_spec in Hmax as [Hmax_in Hmax].
  assert (∀ r, r ∈ r0 :: df →
            dt_date min_ts ≤ dt_date (order_purchase_timestamp r)
            ≤ dt_date max_ts) as Hall.
  { intros r Hr. apply (list_elem_of_fmap_2 order_purchase_timestamp) in Hr.
    split; apply dt_date_mono; auto. }
  exists (dt_date min_ts), (dt_date max_ts). split; [done|].
  split; [apply dt_date_mono; auto|]. split; [done|].
  rewrite filter_data_ALL. apply filter_all_rows.
  intros r Hr. destruct (Hall r Hr). done.
Qed.

Lemma sidebar_default_selects_all_witness :
  sample_view ≠ []
  ∧ ∃ min_date max_date,
      sidebar_date_range sample_view = Some (min_date, max_date)
      ∧ filter_data sample_view min_date max_date "ALL" = sample_view.
Proof.
  split; [done|].
  destruct (sidebar_default_selects_all sample_view ltac:(done))
    as (min_date & max_date & Hrange & _ & _ & Hall).
  exists min_date, max_date. split; [exact Hrange|exact Hall].
Defined.

(** X2. Every option of the status radio selects at least one row over
    the full date range of the sidebar, every status of the table is among
    the options, and the options after ["ALL"] list each status once. *)
Theorem sidebar_order_status_spec (df : DataFrame) (min_date max_date : Z) :
  sidebar_date_range df = Some (min_date, max_date) →
  (∀ st, st ∈ sidebar_order_status df →
         filter_data df min_date max_date st ≠ [])
  ∧ (∀ r, r ∈ df → order_status r ∈ sidebar_order_status df)
  ∧ NoDup (tail (sidebar_order_status df)).
Proof.
  intros Hrange. split; [|split].
  - intros st Hst Hnil.
    assert (∃ r, r ∈ df ∧ (st ≠ "ALL" → order_status r = st))
      as (r & Hr & Hstatus).
    { destruct (decide (st = "ALL")) as [->|Hne].
      - destruct df as [|r df]; [done|]. exists r. split; [left|done].
      - apply elem_of_cons in Hst as [?|Hst]; [done|].
        apply elem_of_unique, list_elem_of_fmap in Hst as (r & -> & Hr).
        eauto. }
    assert (r ∈ filter_data df min_date max_date st) as Hin.
    { apply elem_of_filter_data. split; [done|]. split; [|done].
      by eapply sidebar_date_range_covers. }
    rewrite Hnil in Hin. by inversion Hin.
  - intros r Hr. right. apply elem_of_unique. by apply list_elem_of_fmap_2.
  - apply NoDup_unique.
Qed.

Lemma sidebar_order_status_spec_witness :
  sidebar_date_range sample_view
  = Some (days_from_civil 2017 1 15, days_from_civil 2017 3 5)
  ∧ filter_data sample_view (days_from_civil 2017 1 15)
      (days_from_civil 2017 3 5) "shipped" ≠ [].
Proof.
  assert (sidebar_date_range sample_view
          = Some (days_from_civil 2017 1 15, days_from_civil 2017 3 5))
    as Hrange by reflexivity.
  split; [exact Hrange|].
  destruct (sidebar_order_status_spec sample_view _ _ Hrange) as [Hall _].
  apply Hall. right. right. left.
Defined.

(** X3. Filtering a filtered view again, with the same status or after
    an ["ALL"] pass, is filtering the table once over the intersection of
    the two date ranges; in particular [filter_data] is idempotent. *)
Theorem filter_data_compose (df : DataFrame) (s1 e1 s2 e2 : Z)
    (selected_status : string) :
  filter_data (filter_data df s1 e1 selected_status) s2 e2 selected_status
  = filter_data df (Z.max s1 s2) (Z.min e1 e2) selected_status
  ∧ filter_data (filter_data df s1 e1 "ALL") s2 e2 selected_status
    = filter_data df (Z.max s1 s2) (Z.min e1 e2) selected_status
  ∧ filter_data (filter_data df s1 e1 selected_status) s1 e1 selected_status
    = filter_data df s1 e1 selected_status.
Proof.
  rewrite !filter_data_filter, !list_filter_filter.
  repeat split; apply list_filter_iff; intros r; split; intros H;
    repeat split; try (intros ?; tauto); try lia; tauto.
Qed.

(** X4. [filter_data] works row by row: it distributes over the
    concatenation of tables, and tables with the same rows in another
    order give views with the same rows. *)
Theorem filter_data_rowwise (df1 df2 : DataFrame) (start_date end_date : Z)
    (selected_status : string) :
  filter_data (df1 ++ df2) start_date end_date selected_status
  = filter_data df1 start_date end_date selected_status
    ++ filter_data df2 start_date end_date selected_status
  ∧ (df1 ≡ₚ df2 →
     filter_data df1 start_date end_date selected_status
     ≡ₚ filter_data df2 start_date end_date selected_status).
Proof.
  rewrite !filter_data_filter. split; [apply filter_app|].
  intros Hperm. by rewrite Hperm.
Qed.

(** X5. When no row uses the sentinel ["ALL"] as its status, the views
    of the statuses of the table split the ["ALL"] view: their row counts
    add up to its row count. *)
Theorem filter_data_status_partition (df : DataFrame)
    (start_date end_date : Z) :
  "ALL" ∉ order_status <$> df →
  sum_list ((λ st, length (filter_data df start_date end_date st))
              <$> unique (order_status <$> df))
  = length (filter_data df start_date end_date "ALL").
Proof.
  intros Hsentinel. rewrite filter_data_ALL.
  set (in_range := filter _ df).
  rewrite <-(length_by_key order_status (unique (order_status <$> df)) in_range).
  - f_equal. apply fmap_ext_in. intros st Hst.
    rewrite filter_data_status; [done|].
    intros ->. by apply Hsentinel, elem_of_unique.
  - apply NoDup_unique.
  - intros r [_ Hr]%list_elem_of_filter.
    apply elem_of_unique. by apply list_elem_of_fmap_2.
Qed.

Lemma filter_data_status_partition_witness :
("ALL" ∉ order_status <$> sample_view)
  ∧ sum_list ((λ st, length (filter_data sample_view 0 20000 st))
                <$> unique (order_status <$> sample_view))
    = length (filter_data sample_view 0 20000 "ALL").
Proof.
  assert ("ALL" ∉ order_status <$> sample_view) as Hsentinel.
  { intros Hin. repeat (apply elem_of_cons in Hin as [Heq|Hin];
      [discriminate Heq|]). by inversion Hin. }
  split; [exact Hsentinel|].
  by apply (filter_data_status_partition sample_view 0 20000).
Defined.

(** A status equal to the sentinel cannot be selected on its own: in
    such a table the views of the statuses count more rows than the
    ["ALL"] view. *)
Example sentinel_status_is_not_selectable :
  filter_data sentinel_status 0 20000 "ALL" = sentinel_status
  ∧ sum_list ((λ st, length (filter_data sentinel_status 0 20000 st))
                <$> unique (order_status <$> sentinel_status)) = 3%nat.
Proof. split; vm_compute; reflexivity. Qed.

(** ** More on daily and monthly orders *)

Section nunique_more.
Implicit Types (l : list string).

Lemma length_filter_ne_NoDup l x :
  NoDup l → x ∈ l → S (length (filter (λ y, y ≠ x) l)) = length l.
Proof.
  induction 1 as [|y l Hy Hnd IH]; intros Hx; [by inversion Hx|].
  rewrite filter_cons. destruct (decide (y = x)) as [->|Hne].
  - rewrite decide_False by tauto. simpl. f_equal.
    rewrite filter_all_rows; [done|]. intros z Hz Heq. apply Hy. by subst.
  - rewrite decide_True by done. simpl. f_equal. apply IH.
    apply elem_of_cons in Hx as [?|?]; [congruence|done].
Qed.

(** A further row adds one to the distinct count exactly when its value
    is new. *)
Lemma nunique_cons x l :
  nunique (x :: l) = if decide (x ∈ l) then nunique l else S (nunique l).
Proof.
  unfold nunique. simpl. destruct (decide (x ∈ l)) as [Hx|Hx].
  - apply length_filter_ne_NoDup; [apply NoDup_unique|by apply elem_of_unique].
  - f_equal. rewrite filter_all_rows; [done|].
    intros z Hz Heq. apply Hx. subst z. by apply elem_of_unique.
Qed.


Lemma nunique_submseteq l1 l2 :
  (∀ x, x ∈ l1 → x ∈ l2) → (nunique l1 ≤ nunique l2)%nat.
Proof.
  intros Hsub. apply submseteq_length, NoDup_submseteq; [apply NoDup_unique|].
  intros x. rewrite !elem_of_unique. apply Hsub.
Qed.
End nunique_more.

Section resample_counts.
Context (bin label : Z → Z).
Hypothesis bin_mono : ∀ a b, a ≤ b → bin a ≤ bin b.
Implicit Types (df : DataFrame) (r : Row) (k : Z).


Lemma bin_rows_cons r df k :
  bin_rows bin k (r :: df)
  = if decide (bin (order_purchase_timestamp r) = k)
    then r :: bin_rows bin k df else bin_rows bin k df.
Proof. unfold bin_rows. by rewrite filter_cons. Qed.

(** The distinct counts of the bins add up to at least the distinct
    count of the view, and to exactly it when the rows of an order share
    a bin. *)
Lemma nunique_by_bin (ks : list Z) df :
  NoDup ks →
  (∀ r, r ∈ df → bin (order_purchase_timestamp r) ∈ ks) →
  (nunique (order_id <$> df)
   ≤ sum_list ((λ k, nunique (order_id <$> bin_rows bin k df)) <$> ks))%nat
  ∧ ((∀ r1 r2, r1 ∈ df → r2 ∈ df → order_id r1 = order_id r2 →
        bin (order_purchase_timestamp r1) = bin (order_purchase_timestamp r2)) →
     sum_list ((λ k, nunique (order_id <$> bin_rows bin k df)) <$> ks)
     = nunique (order_id <$> df)).
Proof.
  intros Hnd. induction df as [|r df IH]; intros Hcover.
  { csimpl. rewrite sum_list_fmap_zero. split; [done|]. done. }
  destruct IH as [IHle IHeq].
  { intros r' Hr'. apply Hcover. by right. }
  set (k0 := bin (order_purchase_timestamp r)).
  set (n0 := if decide (order_id r ∈ order_id <$> bin_rows bin k0 df)
             then 0%nat else 1%nat).
  assert (sum_list ((λ k, nunique (order_id <$> bin_rows bin k (r :: df)))
                      <$> ks)
          = (n0 + sum_list ((λ k, nunique (order_id <$> bin_rows bin k df))
                              <$> ks))%nat) as Hsum.
  { rewrite (fmap_ext_in _
      (λ k, (if decide (k = k0) then n0 else 0)
            + nunique (order_id <$> bin_rows bin k df))%nat).
    - rewrite sum_list_fmap_add, sum_list_select; [done|done|].
      apply Hcover. left.
    - intros k _. rewrite bin_rows_cons. fold k0.
      destruct (decide (k0 = k)) as [<-|Hne].
      + rewrite decide_True by done. rewrite fmap_cons, nunique_cons.
        subst n0. by case_decide.
      + by rewrite decide_False by done. }
  rewrite Hsum, fmap_cons, nunique_cons. split.
  - subst n0. repeat case_decide; try lia.
    exfalso. match goal with H : ¬ _ ∈ order_id <$> df |- _ => apply H end.
    match goal with H : _ ∈ order_id <$> bin_rows _ _ _ |- _ =>
      apply list_elem_of_fmap in H as (r' & -> & [_ Hr']%list_elem_of_filter)
    end.
    by apply list_elem_of_fmap_2.
  - intros Hsame. rewrite IHeq.
    2:{ intros r1 r2 Hr1 Hr2. apply Hsame; by right. }
    subst n0. repeat case_decide; try lia.
    + exfalso. match goal with H : ¬ _ ∈ order_id <$> df |- _ => apply H end.
      match goal with H : _ ∈ order_id <$> bin_rows _ _ _ |- _ =>
        apply list_elem_of_fmap in H as (r' & -> & [_ Hr']%list_elem_of_filter)
      end.
      by apply list_elem_of_fmap_2.
    + exfalso.
      match goal with H : ¬ _ ∈ order_id <$> bin_rows _ _ _ |- _ => apply H end.
      match goal with H : _ ∈ order_id <$> df |- _ =>
        apply list_elem_of_fmap in H as (r' & Hid & Hr')
      end.
      rewrite Hid. apply list_elem_of_fmap_2. apply list_elem_of_filter.
      split; [|done]. symmetry. apply Hsame; [left|by right|done].
Qed.

Lemma resample_order_counts df :
  (nunique (order_id <$> df)
   ≤ sum_list (bucket_order_id <$> resample bin label df))%nat
  ∧ ((∀ r1 r2, r1 ∈ df → r2 ∈ df → order_id r1 = order_id r2 →
        bin (order_purchase_timestamp r1) = bin (order_purchase_timestamp r2)) →
     sum_list (bucket_order_id <$> resample bin label df)
     = nunique (order_id <$> df)).
Proof.
  destruct df as [|r df]; [done|].
  destruct (resample_cons bin label r df) as (first & last & Hmin & Hmax & ->).
  rewrite <-list_fmap_compose.
  apply (nunique_by_bin _ (r :: df)); [apply NoDup_seqZ|].
  intros r' Hr'. by eapply bin_in_range.
Qed.
End resample_counts.

Ltac in_sample H :=
  repeat (apply elem_of_cons in H as [->|H]); [..|by inversion H].





(** X8. The order counts of the daily buckets, and those of the monthly
    buckets, add up to at least the total-orders metric of the view: an
    order whose rows fall into several buckets is counted in each. *)
Theorem bucket_order_counts_cover_total (df : DataFrame) :
  (total_orders df
   ≤ sum_list (bucket_order_id <$> create_daily_orders df))%nat
  ∧ (total_orders df
     ≤ sum_list (bucket_order_id <$> create_monthly_orders df))%nat.
Proof.
  split.
  - apply (resample_order_counts day_bin day_label day_bin_mono df).
  - apply (resample_order_counts month_bin month_label month_bin_mono df).
Qed.

(** X9. When the rows of every order carry one purchase timestamp, the
    order counts of the daily buckets add up to the total-orders metric
    exactly, and so do those of the monthly buckets. *)
Theorem bucket_order_counts_sum_to_total (df : DataFrame) :
  (∀ r1 r2, r1 ∈ df → r2 ∈ df → order_id r1 = order_id r2 →
            order_purchase_timestamp r1 = order_purchase_timestamp r2) →
  sum_list (bucket_order_id <$> create_daily_orders df) = total_orders df
  ∧ sum_list (bucket_order_id <$> create_monthly_orders df)
    = total_orders df.
Proof.
  intros Hsame. split.
  - apply (resample_order_counts day_bin day_label day_bin_mono df).
    intros r1 r2 Hr1 Hr2 Hid. by rewrite (Hsame r1 r2).
  - apply (resample_order_counts month_bin month_label month_bin_mono df).
    intros r1 r2 Hr1 Hr2 Hid. by rewrite (Hsame r1 r2).
Qed.

Lemma bucket_order_counts_sum_to_total_witness :
  (∀ r1 r2, r1 ∈ sample_view → r2 ∈ sample_view →
            order_id r1 = order_id r2 →
            order_purchase_timestamp r1 = order_purchase_timestamp r2)
  ∧ sum_list (bucket_order_id <$> create_daily_orders sample_view) = 3%nat.
Proof.
  assert (∀ r1 r2, r1 ∈ sample_view → r2 ∈ sample_view →
            order_id r1 = order_id r2 →
            order_purchase_timestamp r1 = order_purchase_timestamp r2)
    as Hsame.
  { intros r1 r2 H1 H2. in_sample H1; in_sample H2;
      intros Hid; try reflexivity; discriminate Hid. }
  split; [exact Hsame|].
  apply (bucket_order_counts_sum_to_total sample_view Hsame).
Defined.

(** Two rows of one order stamped a month apart are counted in two
    monthly buckets. *)
Example split_order_counted_twice :
  let df := [ mkRow "o1" (timestamp_of 2017 1 31 23) "shipped" "a" "SP"
                "toys" 1 100;
              mkRow "o1" (timestamp_of 2017 2 1 0) "shipped" "a" "SP"
                "toys" 1 100 ] in
  total_orders df = 1%nat
  ∧ bucket_order_id <$> create_monthly_orders df = [1%nat; 1%nat]
  ∧ bucket_order_id <$> create_daily_orders df = [1%nat; 1%nat].
Proof. repeat split; vm_compute; reflexivity. Qed.

(** ** Grouped sums *)

Section grouped.
Implicit Types (df : DataFrame) (row : RfmRow).




End grouped.




(** X13. On a non-empty view every row of the RFM table has a recency
    of a whole, non-negative number of days and a frequency of at least
    one, and some customer has recency 0. *)
Theorem rfm_bounds (df : DataFrame) :
  df ≠ [] →
  (∀ row, row ∈ create_rfm_analysis df →
     (∃ d, recency row = Some d ∧ 0 ≤ d) ∧ (1 ≤ frequency row)%nat)
  ∧ ∃ row, row ∈ create_rfm_analysis df ∧ recency row = Some 0.
Proof.
  intros Hne.
  destruct (series_max_is_Some (order_purchase_timestamp <$> df)) as [now Hnow].
  { by destruct df. }
  pose proof Hnow as [Hnow_in Hnow_max]%series_max_spec.
  assert (∀ c, c ∈ customer_id <$> df →
            ∃ last, series_max (order_purchase_timestamp
                                  <$> get_group customer_id c df) = Some last
                    ∧ last ≤ now) as Hlast.
  { intros c Hc.
    destruct (series_max_is_Some
                (order_purchase_timestamp <$> get_group customer_id c df))
      as [last Hlast].
    { intros Hnil%fmap_nil_inv. by apply (get_group_nonempty customer_id df c). }
    exists last. split; [done|].
    apply series_max_spec in Hlast as [Hin _]. apply Hnow_max.
    apply list_elem_of_fmap in Hin as (r & -> & [_ Hr]%list_elem_of_filter).
    by apply list_elem_of_fmap_2. }
  split.
  - intros row (i & Hi)%list_elem_of_lookup.
    apply create_rfm_analysis_lookup in Hi as (c & Hc & ->).
    apply list_elem_of_lookup_2, elem_of_group_keys in Hc.
    destruct (Hlast c Hc) as (last & Hmax & Hle). split.
    + exists (timedelta_days (now - last)). simpl. rewrite Hnow, Hmax.
      split; [done|]. unfold timedelta_days, ns_per_day.
      apply Z.div_pos; lia.
    + simpl. unfold series_count. rewrite length_fmap.
      pose proof (get_group_nonempty customer_id df c Hc).
      destruct (get_group customer_id c df); [done|simpl; lia].
  - apply list_elem_of_fmap in Hnow_in as (r & Hts & Hr).
    assert (customer_id r ∈ group_keys customer_id df) as Hkey.
    { apply elem_of_group_keys. by apply list_elem_of_fmap_2. }
    apply list_elem_of_lookup in Hkey as (i & Hi).
    exists (rfm_row df i (customer_id r)). split.
    + apply list_elem_of_lookup. exists i.
      apply create_rfm_analysis_lookup. eauto.
    + destruct (Hlast (customer_id r)) as (last & Hmax & Hle).
      { by apply list_elem_of_fmap_2. }
      simpl. rewrite Hnow, Hmax. simpl.
      apply series_max_spec in Hmax as [_ Hge].
      assert (now ≤ last).
      { apply Hge. rewrite Hts. apply list_elem_of_fmap_2.
        by apply list_elem_of_filter. }
      by replace (now - last) with 0 by lia.
Qed.

Lemma rfm_bounds_witness :
  sample_view ≠ []
  ∧ ∃ row, row ∈ create_rfm_analysis sample_view ∧ recency row = Some 0.
Proof.
  split; [done|].
  destruct (rfm_bounds sample_view ltac:(done)) as [_ Hzero]. exact Hzero.
Defined.

(** ** The ranked charts *)

Section top_n.
Context {A} (R : relation A) `{!RelDecision R, !Total R, !Transitive R}.
Implicit Types (l : list A).

(** The first [n] rows of a sorted table are sorted, and rank before
    every row that is left out. *)
Lemma take_merge_sort n l :
  length (take n (merge_sort R l)) = (n `min` length l)%nat
  ∧ StronglySorted R (take n (merge_sort R l))
  ∧ (∀ x, x ∈ take n (merge_sort R l) → x ∈ l)
  ∧ ∃ rest, l ≡ₚ take n (merge_sort R l) ++ rest
            ∧ ∀ x y, x ∈ take n (merge_sort R l) → y ∈ rest → R x y.
Proof.
  pose proof (StronglySorted_merge_sort R l) as Hsorted.
  pose proof (merge_sort_Permutation R l) as Hperm.
  rewrite <-(take_drop n (merge_sort R l)) in Hsorted.
  apply StronglySorted_app in Hsorted as (Hcross & Htop & _).
  split; [by rewrite length_take, Hperm|]. split; [done|]. split.
  - intros x Hx. rewrite <-Hperm, <-(take_drop n (merge_sort R l)).
    apply elem_of_app. by left.
  - exists (drop n (merge_sort R l)). by rewrite take_drop.
Qed.

Lemma take_merge_sort_all n l :
  (length l ≤ n)%nat → take n (merge_sort R l) ≡ₚ l.
Proof.
  intros Hn. rewrite take_ge; [apply merge_sort_Permutation|].
  by rewrite merge_sort_Permutation.
Qed.
End top_n.

Section orders.
Global Instance by_value_total : Total by_value.
Proof. intros a b. unfold by_value. lia. Qed.
Global Instance by_value_trans : Transitive by_value.
Proof. intros a b c. unfold by_value. lia. Qed.
Global Instance by_value_desc_total : Total by_value_desc.
Proof. intros a b. unfold by_value_desc. lia. Qed.
Global Instance by_value_desc_trans : Transitive by_value_desc.
Proof. intros a b c. unfold by_value_desc. lia. Qed.
Global Instance by_count_desc_total : Total by_count_desc.
Proof. intros a b. unfold by_count_desc. lia. Qed.
Global Instance by_count_desc_trans : Transitive by_count_desc.
Proof. intros a b c. unfold by_count_desc. lia. Qed.
Global Instance by_recency_total : Total by_recency.
Proof.
  intros a b. unfold by_recency.
  destruct (recency a), (recency b); simpl; auto. lia.
Qed.
Global Instance by_recency_trans : Transitive by_recency.
Proof.
  intros a b c. unfold by_recency.
  destruct (recency a), (recency b), (recency c); simpl; auto; lia.
Qed.
Global Instance by_frequency_desc_total : Total by_frequency_desc.
Proof. intros a b. unfold by_frequency_desc. lia. Qed.
Global Instance by_frequency_desc_trans : Transitive by_frequency_desc.
Proof. intros a b c. unfold by_frequency_desc. lia. Qed.
Global Instance by_monetary_desc_total : Total by_monetary_desc.
Proof. intros a b. unfold by_monetary_desc. lia. Qed.
Global Instance by_monetary_desc_trans : Transitive by_monetary_desc.
Proof. intros a b c. unfold by_monetary_desc. lia. Qed.
End orders.

(** X14. The best-selling chart shows [min 5 n] of the [n] categories
    of the summary, in non-increasing order of quantity, and no category
    left out has a larger quantity than one shown; the worst-selling
    chart does the same with the smallest quantities; with at most five
    categories the two charts show the same categories, all of them. *)
Theorem best_worst_categories_spec (df : DataFrame) :
  let summary := create_best_worst_categories df in
  let best := best_selling_categories df in
  let worst := worst_selling_categories df in
  length best = (5 `min` length summary)%nat
  ∧ StronglySorted by_value_desc best
  ∧ (∃ rest, summary ≡ₚ best ++ rest
             ∧ ∀ p q, p ∈ best → q ∈ rest → q.2 ≤ p.2)
  ∧ length worst = (5 `min` length summary)%nat
  ∧ StronglySorted by_value worst
  ∧ (∃ rest, summary ≡ₚ worst ++ rest
             ∧ ∀ p q, p ∈ worst → q ∈ rest → p.2 ≤ q.2)
  ∧ ((length summary ≤ 5)%nat → best ≡ₚ summary ∧ worst ≡ₚ summary).
Proof.
  intros summary best worst.
  destruct (take_merge_sort by_value_desc 5 summary) as (? & ? & _ & ?).
  destruct (take_merge_sort by_value 5 summary) as (? & ? & _ & ?).
  repeat split; try done.
  - by apply take_merge_sort_all.
  - by apply take_merge_sort_all.
Qed.

(** X15. Each of the three RFM charts shows [min 5 n] of the [n] rows
    of the RFM table: those of smallest recency in non-decreasing order,
    those of largest frequency and those of largest monetary value in
    non-increasing order; no row left out ranks before a row shown, and
    every row shown is a row of the table. *)
Theorem rfm_charts_spec (df : DataFrame) :
  let rfm_df := create_rfm_analysis df in
  (length (rfm_top_recency df) = (5 `min` length rfm_df)%nat
   ∧ StronglySorted by_recency (rfm_top_recency df)
   ∧ (∀ row, row ∈ rfm_top_recency df → row ∈ rfm_df)
   ∧ ∃ rest, rfm_df ≡ₚ rfm_top_recency df ++ rest
             ∧ ∀ x y, x ∈ rfm_top_recency df → y ∈ rest →
                      nan_last_le (recency x) (recency y))
  ∧ (length (rfm_top_frequency df) = (5 `min` length rfm_df)%nat
     ∧ StronglySorted by_frequency_desc (rfm_top_frequency df)
     ∧ (∀ row, row ∈ rfm_top_frequency df → row ∈ rfm_df)
     ∧ ∃ rest, rfm_df ≡ₚ rfm_top_frequency df ++ rest
               ∧ ∀ x y, x ∈ rfm_top_frequency df → y ∈ rest →
                        (frequency y ≤ frequency x)%nat)
  ∧ (length (rfm_top_monetary df) = (5 `min` length rfm_df)%nat
     ∧ StronglySorted by_monetary_desc (rfm_top_monetary df)
     ∧ (∀ row, row ∈ rfm_top_monetary df → row ∈ rfm_df)
     ∧ ∃ rest, rfm_df ≡ₚ rfm_top_monetary df ++ rest
               ∧ ∀ x y, x ∈ rfm_top_monetary df → y ∈ rest →
                        monetary y ≤ monetary x).
Proof.
  intros rfm_df. split; [|split].
  - apply (take_merge_sort by_recency 5 rfm_df).
  - apply (take_merge_sort by_frequency_desc 5 rfm_df).
  - apply (take_merge_sort by_monetary_desc 5 rfm_df).
Qed.

Lemma length_filter_fmap {B} (f : B → string) (v : string) (l : list B) :
  length (filter (λ x, x = v) (f <$> l))
  = length (filter (λ b, f b = v) l).
Proof.
  induction l as [|b l IH]; [done|].
  rewrite fmap_cons, !filter_cons. destruct (decide (f b = v)); simpl; lia.
Qed.

(** X16. The status chart has one bar per order status of the view,
    whose height is the number of rows with that status, at least one;
    the bars are in non-increasing order of height and their heights add
    up to the number of rows of the view. *)
Theorem order_count_spec (df : DataFrame) :
  NoDup ((order_count df).*1)
  ∧ (∀ st, st ∈ (order_count df).*1 ↔ st ∈ order_status <$> df)
  ∧ (∀ st n, (st, n) ∈ order_count df →
       n = length (filter (λ r, order_status r = st) df) ∧ (1 ≤ n)%nat)
  ∧ StronglySorted (λ a b, (b ≤ a)%nat) ((order_count df).*2)
  ∧ sum_list ((order_count df).*2) = length df.
Proof.
  unfold order_count, value_counts.
  set (s := order_status <$> df).
  set (counts := (λ v, (v, length (filter (λ x, x = v) s))) <$> unique s).
  assert (merge_sort by_count_desc counts ≡ₚ counts) as Hperm
    by apply merge_sort_Permutation.
  assert (counts.*1 = unique s) as Hkeys.
  { subst counts. rewrite <-list_fmap_compose.
    rewrite (fmap_ext_in (fst ∘ _) id) by done. apply list_fmap_id. }
  split; [|split; [|split; [|split]]].
  - rewrite Hperm, Hkeys. apply NoDup_unique.
  - intros st. rewrite Hperm, Hkeys. apply elem_of_unique.
  - intros st n Hin. rewrite Hperm in Hin.
    apply list_elem_of_fmap in Hin as (v & [= -> ->] & Hv).
    subst s. rewrite length_filter_fmap. split; [done|].
    apply elem_of_unique, list_elem_of_fmap in Hv as (r & -> & Hr).
    assert (r ∈ filter (λ r', order_status r' = order_status r) df) as Hin
      by (by apply list_elem_of_filter).
    destruct (filter _ df); [by inversion Hin|simpl; lia].
  - eapply StronglySorted_fmap; [|apply StronglySorted_merge_sort; apply _].
    intros a b Hab. exact Hab.
  - rewrite Hperm. subst counts. rewrite <-list_fmap_compose.
    rewrite (fmap_ext_in _ (λ v, length (filter (λ r, order_status r = v) df))).
    + apply (length_by_key order_status); [apply NoDup_unique|].
      intros r Hr. apply elem_of_unique. by apply list_elem_of_fmap_2.
    + intros v _. simpl. subst s. apply length_filter_fmap.
Qed.

(** ** The pipeline of [main]: filter, then aggregate *)

Section pipeline.
Context (bin label : Z → Z).
Hypothesis bin_mono : ∀ a b, a ≤ b → bin a ≤ bin b.
Implicit Types (df : DataFrame) (b : Bucket).

(** A bucket is the bucket of a bin between those of two rows of the
    frame. *)
Lemma elem_of_resample_between df b :
  b ∈ resample bin label df →
  ∃ r1 r2 k,
    r1 ∈ df ∧ r2 ∈ df
    ∧ bin (order_purchase_timestamp r1) ≤ k ≤ bin (order_purchase_timestamp r2)
    ∧ b = bucket_of bin label df k.
Proof.
  destruct df as [|r0 df]; [by inversion 1|].
  destruct (resample_cons bin label r0 df)
    as (first & last & Hmin & Hmax & ->).
  intros (k & -> & Hk)%list_elem_of_fmap. apply elem_of_seqZ in Hk.
  apply series_min_spec in Hmin as [(r1 & -> & Hr1)%list_elem_of_fmap _].
  apply series_max_spec in Hmax as [(r2 & -> & Hr2)%list_elem_of_fmap _].
  exists r1, r2, k. repeat split; try done; lia.
Qed.
End pipeline.

(** X17. The daily table of a filtered view stays inside the selected
    range: every bucket is stamped with midnight of a day between
    [start_date] and [end_date]. *)
Theorem filtered_daily_orders_in_range (df : DataFrame)
    (start_date end_date : Z) (selected_status : string) (b : Bucket) :
  b ∈ create_daily_orders
        (filter_data df start_date end_date selected_status) →
  start_date ≤ dt_date (bucket_timestamp b) ≤ end_date
  ∧ bucket_timestamp b = day_start (dt_date (bucket_timestamp b)).
Proof.
  intros (r1 & r2 & k & Hr1 & Hr2 & Hk & ->)%elem_of_resample_between.
  apply elem_of_filter_data in Hr1 as (_ & Hr1 & _).
  apply elem_of_filter_data in Hr2 as (_ & Hr2 & _).
  simpl. unfold day_label. rewrite dt_date_day_start.
  unfold day_bin in Hk. split; [lia|done].
Qed.

Lemma filtered_daily_orders_in_range_witness :
  mkBucket (timestamp_of 2017 1 15 0) 1 1500
    ∈ create_daily_orders
        (filter_data sample_view (days_from_civil 2017 1 1)
           (days_from_civil 2017 1 20) "ALL")
  ∧ days_from_civil 2017 1 1
    ≤ dt_date (timestamp_of 2017 1 15 0)
    ≤ days_from_civil 2017 1 20.
Proof.
  assert (mkBucket (timestamp_of 2017 1 15 0) 1 1500
            ∈ create_daily_orders
                (filter_data sample_view (days_from_civil 2017 1 1)
                   (days_from_civil 2017 1 20) "ALL")) as Hin.
  { vm_compute. left. }
  split; [exact Hin|].
  apply (filtered_daily_orders_in_range sample_view _ _ "ALL" _ Hin).
Defined.

(** X18. The monthly table of a filtered view stays inside the months
    of the selected range: every bucket is the bucket of a month between
    the month of [start_date] and the month of [end_date], stamped with
    the last day of that month. *)
Theorem filtered_monthly_orders_in_range (df : DataFrame)
    (start_date end_date : Z) (selected_status : string) (b : Bucket) :
  b ∈ create_monthly_orders
        (filter_data df start_date end_date selected_status) →
  month_index start_date
  ≤ month_index (dt_date (bucket_timestamp b))
  ≤ month_index end_date
  ∧ month_index (dt_date (bucket_timestamp b) + 1)
    = month_index (dt_date (bucket_timestamp b)) + 1.
Proof.
  intros (r1 & r2 & k & Hr1 & Hr2 & Hk & ->)%elem_of_resample_between.
  apply elem_of_filter_data in Hr1 as (_ & Hr1 & _).
  apply elem_of_filter_data in Hr2 as (_ & Hr2 & _).
  simpl. destruct (month_label_last_day k) as [-> ->].
  unfold month_bin in Hk.
  pose proof (month_index_mono _ _ (proj1 Hr1)).
  pose proof (month_index_mono _ _ (proj2 Hr2)).
  split; [lia|done].
Qed.

Lemma filtered_monthly_orders_in_range_witness :
  mkBucket (timestamp_of 2017 1 31 0) 1 1500
    ∈ create_monthly_orders
        (filter_data sample_view (days_from_civil 2017 1 1)
           (days_from_civil 2017 1 20) "ALL")
  ∧ month_index (days_from_civil 2017 1 1)
    ≤ month_index (dt_date (timestamp_of 2017 1 31 0))
    ≤ month_index (days_from_civil 2017 1 20).
Proof.
  assert (mkBucket (timestamp_of 2017 1 31 0) 1 1500
            ∈ create_monthly_orders
                (filter_data sample_view (days_from_civil 2017 1 1)
                   (days_from_civil 2017 1 20) "ALL")) as Hin.
  { vm_compute. left. }
  split; [exact Hin|].
  apply (filtered_monthly_orders_in_range sample_view _ _ "ALL" _ Hin).
Defined.

(** The stamp of a monthly bucket can lie after the selected end date:
    a view that ends on 2017-01-20 has its bucket stamped 2017-01-31. *)
Example monthly_stamp_after_end_date :
  bucket_timestamp
    <$> create_monthly_orders
          (filter_data sample_view (days_from_civil 2017 1 1)
             (days_from_civil 2017 1 20) "ALL")
  = [ timestamp_of 2017 1 31 0 ].
Proof. vm_compute. reflexivity. Qed.

(** ** The metrics of a filtered view *)

(** X19. Filtering never raises the total-orders metric: the metric of
    a status view is at most that of the ["ALL"] view over the same
    dates, which is at most that of the whole table, and the metric never
    exceeds the number of rows. *)
Theorem total_orders_filter_data (df : DataFrame) (start_date end_date : Z)
    (selected_status : string) :
  (total_orders (filter_data df start_date end_date selected_status)
   ≤ total_orders (filter_data df start_date end_date "ALL"))%nat
  ∧ (total_orders (filter_data df start_date end_date "ALL")
     ≤ total_orders df)%nat
  ∧ (total_orders df ≤ length df)%nat.
Proof.
  split; [|split].
  - apply nunique_submseteq.
    intros x (r & -> & Hr)%list_elem_of_fmap. apply list_elem_of_fmap_2.
    apply elem_of_filter_data in Hr as (? & ? & _).
    apply elem_of_filter_data. done.
  - apply nunique_submseteq.
    intros x (r & -> & Hr)%list_elem_of_fmap. apply list_elem_of_fmap_2.
    by apply elem_of_filter_data in Hr as (? & _).
  - unfold total_orders. rewrite <-(length_fmap order_id df).
    apply nunique_le_length.
Qed.




(** ** Row order *)

Section row_order.
Implicit Types (df : DataFrame).







End row_order.



(** ** Daily against monthly orders *)

Section rollup.
Implicit Types (df : DataFrame) (k d : Z).



End rollup.



(** X23. The daily table of a filtered view has at most one bucket per
    day of the selected range. *)
Theorem filtered_daily_orders_length (df : DataFrame)
    (start_date end_date : Z) (selected_status : string) :
  (length (create_daily_orders
             (filter_data df start_date end_date selected_status))
   ≤ Z.to_nat (end_date - start_date + 1))%nat.
Proof.
  set (view := filter_data df start_date end_date selected_status).
  destruct view as [|r0 view'] eqn:Hview; [simpl; lia|].
  unfold create_daily_orders.
  destruct (resample_cons day_bin day_label r0 view')
    as (first & last & Hmin & Hmax & ->).
  rewrite length_fmap, length_seqZ.
  apply series_min_spec in Hmin as [(r1 & -> & Hr1)%list_elem_of_fmap _].
  apply series_max_spec in Hmax as [(r2 & -> & Hr2)%list_elem_of_fmap _].
  rewrite <-Hview in Hr1, Hr2. subst view.
  apply elem_of_filter_data in Hr1 as (_ & Hr1 & _).
  apply elem_of_filter_data in Hr2 as (_ & Hr2 & _).
  unfold day_bin. lia.
Qed.
